(** * Token screening pipeline: a shallow embedding and its properties

    The development follows the Python sources

      - [crypto-filter-script.py]                     (hard cut-off pipeline)
      - [project_crypto_security/volume_analyzer .py]  (volume scoring)
      - [project_crypto_security/api_integrations.py]  (backend registry)
      - [project_crypto_security/blacklist_manager.py] (persistent blacklist)
      - [project_crypto_security/crypto_security.py]   (advisory pipeline)

    Python values are a small dynamically typed universe, dictionaries are
    [gmap string _], sets of addresses are [gset string].  Code that logs,
    touches the blacklist or raises lives in a state-and-exception monad
    [M]; every [try ... except Exception] of the sources is a [try_except]
    here, so that "never raises" is a statement about the embedding and
    not a consequence of its typing. *)

From Stdlib Require Import ZArith QArith String Ascii List Lia.
From stdpp Require Import gmap strings list fin_maps.

#[local] Set Warnings "-register-all".
#[local] Open Scope string_scope.
#[local] Open Scope Z_scope.

(* ===================================================================== *)
(** ** Python values *)
(* ===================================================================== *)

(** A binary64 float is either a finite value, kept as the rational it
    denotes exactly, an infinity, or NaN. *)
Inductive pyfloat :=
| FFin (q : Q)
| FInf
| FNegInf
| FNaN.

(** Python numbers as they reach arithmetic: [int] or [float]. *)
Inductive pynum :=
| NInt (z : Z)
| NFloat (f : pyfloat).

(** The values a token record may hold.  Dictionary keys are strings, as in
    the JSON-like records the pipeline receives. *)
Inductive pyval :=
| PNone
| PBool (b : bool)
| PInt (z : Z)
| PFloat (f : pyfloat)
| PStr (s : string)
| PList (l : list pyval)
| PDict (d : gmap string pyval).

(** Exception classes raised by the modelled code and its collaborators;
    all of them derive from [Exception]. *)
Inductive exn_class :=
| AttributeError
| TypeError
| KeyError
| ZeroDivisionError
| FileNotFoundError
| OSError
| YAMLError
| OtherException.

Record exn := Exn { exn_cls : exn_class; exn_msg : string }.

(** [str(e)]. *)
Definition exn_str (e : exn) : string :=
  match exn_cls e with
  | KeyError => "'" ++ exn_msg e ++ "'"
  | _ => exn_msg e
  end.

Inductive result (A : Type) :=
| Ok (a : A)
| Raise (e : exn).
Arguments Ok {A} a.
Arguments Raise {A} e.

Definition rbind {A B} (r : result A) (k : A -> result B) : result B :=
  match r with
  | Ok a => k a
  | Raise e => Raise e
  end.

Definition type_name (v : pyval) : string :=
  match v with
  | PNone => "NoneType"
  | PBool _ => "bool"
  | PInt _ => "int"
  | PFloat _ => "float"
  | PStr _ => "str"
  | PList _ => "list"
  | PDict _ => "dict"
  end.

(** *** Numbers *)

(** The extended real a number denotes. *)
Definition num_val (n : pynum) : pyfloat :=
  match n with
  | NInt z => FFin (inject_Z z)
  | NFloat f => f
  end.

Definition Qltb (p q : Q) : bool :=
  match (p ?= q)%Q with
  | Lt => true
  | _ => false
  end.

(** [a < b] on floats; every comparison with NaN is false. *)
Definition float_lt (a b : pyfloat) : bool :=
  match a, b with
  | FNaN, _ | _, FNaN => false
  | FFin p, FFin q => Qltb p q
  | FFin _, FInf => true
  | FNegInf, FFin _ => true
  | FNegInf, FInf => true
  | _, _ => false
  end.

(** Python compares [int] and [float] by exact value. *)
Definition num_lt (a b : pynum) : bool := float_lt (num_val a) (num_val b).
Definition num_gt (a b : pynum) : bool := num_lt b a.

(** Numeric equality [a == b]. *)
Definition num_eqb (a b : pynum) : bool :=
  match num_val a, num_val b with
  | FFin p, FFin q => Qeq_bool p q
  | FInf, FInf => true
  | FNegInf, FNegInf => true
  | _, _ => false
  end.

(** [bool] is a subclass of [int]. *)
Definition as_num (v : pyval) : option pynum :=
  match v with
  | PBool b => Some (NInt (if b then 1 else 0))
  | PInt z => Some (NInt z)
  | PFloat f => Some (NFloat f)
  | _ => None
  end.

Definition of_num (n : pynum) : pyval :=
  match n with
  | NInt z => PInt z
  | NFloat f => PFloat f
  end.

(** Round a rational to the nearest binary64 value, ties to even (normal
    range only: the program rounds [k/5], [0.1] and [0.5]).  The result is
    in lowest terms. *)
Definition b64_pos (n d : positive) : Q :=
  let scale (e : Z) : Z * Z :=
    if 0 <=? 52 - e then (Z.pos n * 2 ^ (52 - e), Z.pos d)
    else (Z.pos n, Z.pos d * 2 ^ (e - 52)) in
  let e0 := Z.log2 (Z.pos n) - Z.log2 (Z.pos d) in
  let e := let '(a, b) := scale e0 in if a <? 2 ^ 52 * b then e0 - 1 else e0 in
  let '(a, b) := scale e in
  let m := a / b in
  let r := a mod b in
  let m' := if 2 * r <? b then m
            else if b <? 2 * r then m + 1
            else if Z.even m then m else m + 1 in
  Qred (if 0 <=? e - 52 then inject_Z (m' * 2 ^ (e - 52))
        else Qmake m' (Z.to_pos (2 ^ (52 - e)))).

Definition b64 (q : Q) : Q :=
  match Qnum q with
  | Z0 => 0%Q
  | Z.pos n => b64_pos n (Qden q)
  | Z.neg n => Qopp (b64_pos n (Qden q))
  end.

(** The float literals of the sources. *)
Definition float_0_0 : pyfloat := FFin 0.
Definition float_0_1 : pyfloat := FFin (b64 (1 # 10)).
Definition float_0_5 : pyfloat := FFin (b64 (1 # 2)).

(** [a / b] on ints: true division, correctly rounded. *)
Definition int_truediv (a b : Z) : result pyfloat :=
  if b =? 0 then Raise (Exn ZeroDivisionError "division by zero")
  else if b <? 0 then Ok (FFin (b64 (Qmake (- a) (Z.to_pos (- b)))))
  else Ok (FFin (b64 (Qmake a (Z.to_pos b)))).

(** [sum(checks)] on a list of bools. *)
Definition py_sum (checks : list bool) : Z :=
  fold_left (fun acc (c : bool) => acc + (if c then 1 else 0)) checks 0.

(** [min(a, b)] and [max(a, b)]: the first argument wins a tie. *)
Definition py_min (a b : pynum) : pynum := if num_lt b a then b else a.
Definition py_max (a b : pynum) : pynum := if num_gt b a then b else a.

(** [v > n] and [v < n] for a numeric literal [n]: values that are not
    numbers do not compare with one. *)
Definition py_gt (v : pyval) (n : pynum) : result bool :=
  match as_num v with
  | Some x => Ok (num_gt x n)
  | None => Raise (Exn TypeError
      ("'>' not supported between instances of '" ++ type_name v ++ "' and 'number'"))
  end.

Definition py_lt (v : pyval) (n : pynum) : result bool :=
  match as_num v with
  | Some x => Ok (num_lt x n)
  | None => Raise (Exn TypeError
      ("'<' not supported between instances of '" ++ type_name v ++ "' and 'number'"))
  end.

(** *** Truthiness, attribute and item access *)

Definition float_is_zero (f : pyfloat) : bool :=
  match f with
  | FFin q => Qeq_bool q 0
  | _ => false
  end.

(** [bool(v)]. *)
Definition py_truthy (v : pyval) : bool :=
  match v with
  | PNone => false
  | PBool b => b
  | PInt z => negb (z =? 0)
  | PFloat f => negb (float_is_zero f)
  | PStr s => negb (String.eqb s "")
  | PList l => match l with [] => false | _ => true end
  | PDict d => negb (bool_decide (d = ∅))
  end.

Definition no_attribute (v : pyval) (attr : string) : exn :=
  Exn AttributeError
    ("'" ++ type_name v ++ "' object has no attribute '" ++ attr ++ "'").

(** [o.get(key, dflt)]: only dictionaries have the method. *)
Definition py_get (o : pyval) (key : string) (dflt : pyval) : result pyval :=
  match o with
  | PDict d => Ok (default dflt (d !! key))
  | _ => Raise (no_attribute o "get")
  end.

(** [o[key]] with a string key. *)
Definition py_getitem (o : pyval) (key : string) : result pyval :=
  match o with
  | PDict d =>
      match d !! key with
      | Some v => Ok v
      | None => Raise (Exn KeyError key)
      end
  | PStr _ => Raise (Exn TypeError "string indices must be integers")
  | PList _ => Raise (Exn TypeError "list indices must be integers or slices, not str")
  | _ => Raise (Exn TypeError ("'" ++ type_name o ++ "' object is not subscriptable"))
  end.

(** [{**o}]: the entries of a mapping. *)
Definition py_unpack (o : pyval) : result (gmap string pyval) :=
  match o with
  | PDict d => Ok d
  | _ => Raise (Exn TypeError ("'" ++ type_name o ++ "' object is not a mapping"))
  end.

(** [c.lower()] on one character of an ASCII string. *)
Definition lower_ascii (c : ascii) : ascii :=
  let n := nat_of_ascii c in
  if ((65 <=? n) && (n <=? 90))%nat then ascii_of_nat (n + 32) else c.

Fixpoint lower (s : string) : string :=
  match s with
  | EmptyString => EmptyString
  | String c s' => String (lower_ascii c) (lower s')
  end.

(** [address.lower()]: a method of [str] only. *)
Definition py_lower (v : pyval) : result string :=
  match v with
  | PStr s => Ok (lower s)
  | _ => Raise (no_attribute v "lower")
  end.

(* ===================================================================== *)
(** ** Enumerations and records shared by both pipelines *)
(* ===================================================================== *)

(** [class ContractRisk(Enum)], declared identically in
    [crypto-filter-script.py] and [crypto_security.py]. *)
Inductive ContractRisk :=
| SAFE
| LOW_RISK
| MEDIUM_RISK
| HIGH_RISK
| DANGEROUS.

#[global] Instance ContractRisk_eq_dec : EqDecision ContractRisk.
Proof. solve_decision. Defined.

(** [risk.name]. *)
Definition ContractRisk_name (r : ContractRisk) : string :=
  match r with
  | SAFE => "SAFE"
  | LOW_RISK => "LOW_RISK"
  | MEDIUM_RISK => "MEDIUM_RISK"
  | HIGH_RISK => "HIGH_RISK"
  | DANGEROUS => "DANGEROUS"
  end.

(** [risk.value], assigned by [auto()] in declaration order; this is
    [to_numeric]. *)
Definition to_numeric (r : ContractRisk) : Z :=
  match r with
  | SAFE => 1
  | LOW_RISK => 2
  | MEDIUM_RISK => 3
  | HIGH_RISK => 4
  | DANGEROUS => 5
  end.

(** [ContractRisk[name]]: lookup of a member by name. *)
Definition ContractRisk_getitem (name : string) : result ContractRisk :=
  if String.eqb name "SAFE" then Ok SAFE
  else if String.eqb name "LOW_RISK" then Ok LOW_RISK
  else if String.eqb name "MEDIUM_RISK" then Ok MEDIUM_RISK
  else if String.eqb name "HIGH_RISK" then Ok HIGH_RISK
  else if String.eqb name "DANGEROUS" then Ok DANGEROUS
  else Raise (Exn KeyError name).

(** [@dataclass class ContractAnalysis]. *)
Record ContractAnalysis := mkContractAnalysis {
  token_address : pyval;
  risk_level : ContractRisk;
  is_honeypot : bool;
  is_verified : bool;
  is_bundled : bool;
  volume_legitimacy_score : pyfloat;
  potential_issues : list string
}.

(** [ContractAnalysis(token_address=a)]: every other field at its declared
    default. *)
Definition ContractAnalysis_default (a : pyval) : ContractAnalysis :=
  {| token_address := a;
     risk_level := HIGH_RISK;
     is_honeypot := false;
     is_verified := false;
     is_bundled := false;
     volume_legitimacy_score := float_0_0;
     potential_issues := [] |}.

(* ===================================================================== *)
(** ** Program state and the effect monad *)
(* ===================================================================== *)

Inductive level := DEBUG | INFO | WARNING | ERROR.

(** What a run leaves behind besides its result: log records (the format
    string of the source with the interpolated values beside it) and one
    record per entry into a risk-lookup capability. *)
Inductive event :=
| Log (lv : level) (fmt : string) (args : list pyval)
| Call (callee : string) (arg : pyval).

(** The durable blacklist file as [_load_blacklists] sees it. *)
Inductive file_state :=
| FileMissing
    (* [open] raises FileNotFoundError *)
| FileUnreadable (e : exn)
    (* [open], [yaml.safe_load] or the use of the document raises [e] *)
| FileDoc (data : option (gmap string (list string))).
    (* the parsed document: a mapping from keys to lists of strings,
       [None] for an empty document *)

Record state := mkState {
  blacklists : gmap string (gset string);  (* BlacklistManager.blacklists *)
  blacklist_file : file_state;             (* content of blacklist_file *)
  fs_writable : bool;                      (* whether a write succeeds *)
  trace : list event                       (* most recent event first *)
}.

Definition M (A : Type) : Type := state -> result A * state.

Definition ret {A} (a : A) : M A := fun s => (Ok a, s).

Definition bind {A B} (m : M A) (k : A -> M B) : M B :=
  fun s =>
    match m s with
    | (Ok a, s') => k a s'
    | (Raise e, s') => (Raise e, s')
    end.

Definition lift {A} (r : result A) : M A := fun s => (r, s).

(** [try: body  except Exception as e: handler]; the effects of [body] up
    to the point of failure stay. *)
Definition try_except {A} (body : M A) (handler : exn -> M A) : M A :=
  fun s =>
    match body s with
    | (Ok a, s') => (Ok a, s')
    | (Raise e, s') => handler e s'
    end.

Declare Scope py_scope.
Delimit Scope py_scope with py.
Notation "x <- m ;; k" := (bind m (fun x => k))
  (at level 100, m at next level, k at level 200, right associativity) : py_scope.
Notation "m ;;; k" := (bind m (fun _ => k))
  (at level 100, k at level 200, right associativity) : py_scope.
#[local] Open Scope py_scope.

Definition emit (ev : event) : M unit :=
  fun s => (Ok tt, mkState (blacklists s) (blacklist_file s) (fs_writable s)
                           (ev :: trace s)).

Definition log (lv : level) (fmt : string) (args : list pyval) : M unit :=
  emit (Log lv fmt args).

Definition get_blacklists : M (gmap string (gset string)) :=
  fun s => (Ok (blacklists s), s).

Definition set_blacklists (bl : gmap string (gset string)) : M unit :=
  fun s => (Ok tt, mkState bl (blacklist_file s) (fs_writable s) (trace s)).

(** Events emitted by a run from [s] to [s']. *)
Definition emitted (s s' : state) (evs : list event) : Prop :=
  trace s' = (evs ++ trace s)%list.

(* ===================================================================== *)
(** ** [blacklist_manager.py] *)
(* ===================================================================== *)

Module blacklist_manager.

(** [with open(self.blacklist_file, 'r') as f: yaml.safe_load(f)]. *)
Definition safe_load : M (option (gmap string (list string))) :=
  fun s =>
    match blacklist_file s with
    | FileMissing =>
        (Raise (Exn FileNotFoundError "No such file or directory"), s)
    | FileUnreadable e => (Raise e, s)
    | FileDoc data => (Ok data, s)
    end.

(** [with open(self.blacklist_file, 'w') as f: yaml.dump(data, f)]; a
    write that fails leaves the file as it was. *)
Definition dump (data : gmap string (list string)) : M unit :=
  fun s =>
    if fs_writable s
    then (Ok tt, mkState (blacklists s) (FileDoc (Some data)) (fs_writable s)
                         (trace s))
    else (Raise (Exn OSError "Permission denied"), s).

Definition empty_blacklists : gmap string (gset string) :=
  <["tokens" := ∅]> (<["developers" := ∅]> (<["contracts" := ∅]>
    (<["domains" := ∅]> ∅))).

(** [set(data.get(key, []))]. *)
Definition load_category (data : gmap string (list string)) (key : string)
  : gset string :=
  list_to_set (default [] (data !! key)).

Definition _load_blacklists : M (gmap string (gset string)) :=
  try_except
    (loaded <- safe_load ;;
     let data := default ∅ loaded in          (* safe_load(f) or {} *)
     ret (<["tokens" := load_category data "tokens"]>
          (<["developers" := load_category data "developers"]>
          (<["contracts" := load_category data "contracts"]>
          (<["domains" := load_category data "domains"]> ∅)))))
    (fun e =>
       match exn_cls e with
       | FileNotFoundError =>
           log INFO "Blacklist file {} not found. Creating new blacklists." [] ;;;
           ret empty_blacklists
       | _ =>
           log ERROR "Error loading blacklists: {}" [PStr (exn_str e)] ;;;
           ret empty_blacklists
       end).

(** [BlacklistManager.__init__]. *)
Definition init : M unit :=
  bl <- _load_blacklists ;;
  set_blacklists bl.

Definition _save_blacklists : M unit :=
  try_except
    (bl <- get_blacklists ;;
     let data := elements <$> bl in         (* {k: list(v) ...} *)
     dump data ;;;
     log DEBUG "Blacklists saved successfully" [])
    (fun e => log ERROR "Error saving blacklists: {}" [PStr (exn_str e)]).

Definition add_to_blacklist (blacklist_type : string) (address : pyval)
  : M unit :=
  if negb (py_truthy address) then
    log WARNING "Attempted to add empty address to blacklist" []
  else
    bl <- get_blacklists ;;
    match bl !! blacklist_type with
    | None => log WARNING "Invalid blacklist type: {}" [PStr blacklist_type]
    | Some members =>
        a <- lift (py_lower address) ;;
        set_blacklists (<[blacklist_type := {[a]} ∪ members]> bl) ;;;
        _save_blacklists ;;;
        log INFO "Added {} to {} blacklist" [address; PStr blacklist_type]
    end.

Definition remove_from_blacklist (blacklist_type : string) (address : pyval)
  : M unit :=
  bl <- get_blacklists ;;
  match bl !! blacklist_type with
  | None => log WARNING "Invalid blacklist type: {}" [PStr blacklist_type]
  | Some members =>
      a <- lift (py_lower address) ;;
      set_blacklists (<[blacklist_type := members ∖ {[a]}]> bl) ;;;
      _save_blacklists ;;;
      log INFO "Removed {} from {} blacklist" [address; PStr blacklist_type]
  end.

Definition is_blacklisted (blacklist_type : string) (address : pyval)
  : M bool :=
  bl <- get_blacklists ;;
  match bl !! blacklist_type with
  | None =>
      log WARNING "Invalid blacklist type: {}" [PStr blacklist_type] ;;;
      ret false
  | Some members =>
      a <- lift (py_lower address) ;;
      ret (bool_decide (a ∈ members))
  end.

Definition get_blacklist (blacklist_type : string) : M (gset string) :=
  bl <- get_blacklists ;;
  ret (default ∅ (bl !! blacklist_type)).

Definition clear_blacklist (blacklist_type : string) : M unit :=
  bl <- get_blacklists ;;
  match bl !! blacklist_type with
  | Some _ =>
      set_blacklists (<[blacklist_type := ∅]> bl) ;;;
      _save_blacklists ;;;
      log INFO "Cleared {} blacklist" [PStr blacklist_type]
  | None => ret tt
  end.

End blacklist_manager.

(* ===================================================================== *)
(** ** Volume scoring, common to both analyzers *)
(* ===================================================================== *)

Notation "x <~ r ;; k" := (rbind r (fun x => k))
  (at level 100, r at next level, k at level 200, right associativity) : py_scope.

(** The list literal [checks = [...]] of [analyze_volume]: five
    comparisons, evaluated in order, each on [volume_data.get(key, dflt)]. *)
Definition volume_checks (volume_data : pyval) : result (list bool) :=
  total <~ py_get volume_data "total_volume" (PInt 0) ;;
  c1 <~ py_gt total (NInt 1000) ;;
  v1h <~ py_get volume_data "1h_volume" (PInt 0) ;;
  c2 <~ py_gt v1h (NInt 0) ;;
  v24h <~ py_get volume_data "24h_volume" (PInt 0) ;;
  c3 <~ py_gt v24h (NInt 0) ;;
  ratio <~ py_get volume_data "volume_liquidity_ratio" (PInt 0) ;;
  c4 <~ py_gt ratio (NFloat float_0_1) ;;
  spike <~ py_get volume_data "volume_spike_ratio" (PInt 1) ;;
  c5 <~ py_lt spike (NInt 2) ;;
  Ok [c1; c2; c3; c4; c5].

(** The dict literal [volume_data = {...}] both pipelines build from a
    token record. *)
Definition volume_data_of (token_data : pyval) : result pyval :=
  total <~ py_get token_data "volume" (PInt 0) ;;
  v1h <~ py_get token_data "volume_1h" (PInt 0) ;;
  v24h <~ py_get token_data "volume_24h" (PInt 0) ;;
  ratio <~ py_get token_data "volume_liquidity_ratio" (PInt 0) ;;
  spike <~ py_get token_data "volume_spike" (PInt 1) ;;
  Ok (PDict (<["total_volume" := total]> (<["1h_volume" := v1h]>
            (<["24h_volume" := v24h]> (<["volume_liquidity_ratio" := ratio]>
            (<["volume_spike_ratio" := spike]> ∅)))))).

(** The policy gate [volume_score < 0.5] of both pipelines. *)
Definition suspicious_volume (volume_score : pynum) : bool :=
  num_lt volume_score (NFloat float_0_5).

(* ===================================================================== *)
(** ** [volume_analyzer .py] *)
(* ===================================================================== *)

Module volume_analyzer.

Definition analyze_volume (volume_data : pyval) : M pynum :=
  try_except
    (checks <- lift (volume_checks volume_data) ;;
     score <- lift (int_truediv (py_sum checks) (Z.of_nat (length checks))) ;;
     ret (NFloat score))
    (fun e =>
       log ERROR "Volume analysis error: {}" [PStr (exn_str e)] ;;;
       ret (NFloat float_0_0)).

End volume_analyzer.

(* ===================================================================== *)
(** ** [crypto-filter-script.py] *)
(* ===================================================================== *)

Module crypto_filter_script.

(** [VolumeAnalyzer.analyze_volume]: as above, with the result clamped
    by [max(0, min(1, legitimacy_score))]. *)
Definition analyze_volume (volume_data : pyval) : M pynum :=
  try_except
    (checks <- lift (volume_checks volume_data) ;;
     legitimacy_score <-
       lift (int_truediv (py_sum checks) (Z.of_nat (length checks))) ;;
     ret (py_max (NInt 0) (py_min (NInt 1) (NFloat legitimacy_score))))
    (fun e =>
       log ERROR "Volume analysis error: {}" [PStr (exn_str e)] ;;;
       ret (NFloat float_0_0)).

(** The response document of the risk-lookup service. *)
Record response := mkResponse {
  r_token_address : pyval;
  r_risk_level : string;
  r_is_honeypot : bool;
  r_is_verified : bool;
  r_is_bundled : bool;
  r_potential_issues : list string
}.

(** The [mock_response] literal of [check_contract]. *)
Definition mock_response (token_address : pyval) : response :=
  {| r_token_address := token_address;
     r_risk_level := "LOW_RISK";
     r_is_honeypot := false;
     r_is_verified := true;
     r_is_bundled := false;
     r_potential_issues := [] |}.

(** The simulated API call of the source: it always answers. *)
Definition simulated_request (token_address : pyval) : result response :=
  Ok (mock_response token_address).

Section CryptoSecurityFilter.

(** The API request [check_contract] performs.  The source simulates
    it ("replace with actual API request"); a stub or a real transport
    may answer anything or raise. *)
Variable request : pyval -> result response.

(** [RugCheckAPI.check_contract]. *)
Definition check_contract (token_address : pyval) : M ContractAnalysis :=
  emit (Call "RugCheckAPI.check_contract" token_address) ;;;
  try_except
    (mock <- lift (request token_address) ;;
     risk <- lift (ContractRisk_getitem (r_risk_level mock)) ;;
     ret {| token_address := token_address;
            risk_level := risk;
            is_honeypot := r_is_honeypot mock;
            is_verified := r_is_verified mock;
            is_bundled := r_is_bundled mock;
            volume_legitimacy_score := float_0_0;
            potential_issues := r_potential_issues mock |})
    (fun e =>
       log ERROR "RugCheck API error for {}: {}"
           [token_address; PStr (exn_str e)] ;;;
       ret (ContractAnalysis_default token_address)).

(** The condition under which a token is blacklisted. *)
Definition security_concern (contract_analysis : ContractAnalysis) : bool :=
  is_bundled contract_analysis
  || bool_decide (risk_level contract_analysis ∈ [HIGH_RISK; DANGEROUS]).

Definition perform_comprehensive_analysis (token_data : pyval) : M pyval :=
  try_except
    (volume_data <- lift (volume_data_of token_data) ;;
     volume_score <- analyze_volume volume_data ;;
     if suspicious_volume volume_score then
       symbol <- lift (py_get token_data "symbol" (PStr "Unknown Token")) ;;
       log WARNING "Suspicious volume detected for {}" [symbol] ;;;
       ret PNone
     else
       address <- lift (py_getitem token_data "address") ;;
       contract_analysis <- check_contract address ;;
       if security_concern contract_analysis then
         address <- lift (py_getitem token_data "address") ;;
         blacklist_manager.add_to_blacklist "tokens" address ;;;
         developer <- lift (py_get token_data "developer_address" (PStr "")) ;;
         blacklist_manager.add_to_blacklist "developers" developer ;;;
         symbol <- lift (py_get token_data "symbol" (PStr "Unknown")) ;;
         log WARNING "Token {} blacklisted due to security concerns" [symbol] ;;;
         ret PNone
       else
         fields <- lift (py_unpack token_data) ;;
         ret (PDict
                (<["contract_risk_level" :=
                     PStr (ContractRisk_name (risk_level contract_analysis))]>
                (<["volume_legitimacy_score" := of_num volume_score]>
                   fields))))
    (fun e =>
       log ERROR "Comprehensive analysis error: {}" [PStr (exn_str e)] ;;;
       ret PNone).

(** The [for] loop of [filter_tokens], [verified_tokens] being the
    accumulator. *)
Fixpoint filter_tokens_loop (tokens_data : list pyval)
    (verified_tokens : list pyval) : M (list pyval) :=
  match tokens_data with
  | [] => ret verified_tokens
  | token :: rest =>
      analyzed_token <- perform_comprehensive_analysis token ;;
      if py_truthy analyzed_token
      then filter_tokens_loop rest (verified_tokens ++ [analyzed_token])%list
      else filter_tokens_loop rest verified_tokens
  end.

Definition filter_tokens (tokens_data : list pyval) : M (list pyval) :=
  filter_tokens_loop tokens_data [].

End CryptoSecurityFilter.

End crypto_filter_script.

(* ===================================================================== *)
(** ** [api_integrations.py] *)
(* ===================================================================== *)

Module api_integrations.

(** A registered client, seen through [validate_token]. *)
Definition client : Type := pyval -> result pyval.

(** [APIManager._initialize_apis]: the registry of the source is empty. *)
Definition _initialize_apis : list (string * client) := [].

Section APIManager.

(** [self.apis], in iteration order. *)
Variable apis : list (string * client).

(** The [for] loop of [analyze_token], [results] being the
    accumulator. *)
Fixpoint analyze_token_loop (items : list (string * client))
    (token_address : pyval) (results : gmap string pyval)
  : M (gmap string pyval) :=
  match items with
  | [] => ret results
  | (api_name, validate_token) :: rest =>
      results' <-
        try_except
          (emit (Call api_name token_address) ;;;
           answer <- lift (validate_token token_address) ;;
           ret (<[api_name := answer]> results))
          (fun e =>
             log ERROR "Error analyzing token with {}: {}"
                 [PStr api_name; PStr (exn_str e)] ;;;
             ret (<[api_name := PDict {["error" := PStr (exn_str e)]}]>
                    results)) ;;
      analyze_token_loop rest token_address results'
  end.

Definition analyze_token (token_address : pyval) : M pyval :=
  emit (Call "APIManager.analyze_token" token_address) ;;;
  results <- analyze_token_loop apis token_address ∅ ;;
  ret (PDict results).

End APIManager.

End api_integrations.

(* ===================================================================== *)
(** ** [crypto_security.py] *)
(* ===================================================================== *)

Module crypto_security.

(** Placeholder logic of the source: MEDIUM_RISK by default. *)
Definition _calculate_risk_level (api_results : pyval) (volume_score : pynum)
  : ContractRisk :=
  MEDIUM_RISK.

Section CryptoSecurityFilter.

(** [self.api_manager.apis]. *)
Variable apis : list (string * api_integrations.client).

Definition analyze_token (token_data : pyval) : M pyval :=
  try_except
    (address <- lift (py_getitem token_data "address") ;;
     api_results <- api_integrations.analyze_token apis address ;;
     volume_data <- lift (volume_data_of token_data) ;;
     volume_score <- volume_analyzer.analyze_volume volume_data ;;
     if suspicious_volume volume_score then
       symbol <- lift (py_get token_data "symbol" (PStr "Unknown Token")) ;;
       log WARNING "Suspicious volume detected for {}" [symbol] ;;;
       ret PNone
     else
       fields <- lift (py_unpack token_data) ;;
       ret (PDict
              (<["risk_level" :=
                   PStr (ContractRisk_name
                           (_calculate_risk_level api_results volume_score))]>
              (<["volume_score" := of_num volume_score]>
              (<["api_analysis" := api_results]> fields)))))
    (fun e =>
       address <- lift (py_get token_data "address" (PStr "N/A")) ;;
       log ERROR "Error analyzing token {}: {}"
           [address; PStr (exn_str e)] ;;;
       ret PNone).

(** The [for] loop of [analyze_tokens]. *)
Fixpoint analyze_tokens_loop (tokens_data : list pyval)
    (verified_tokens : list pyval) : M (list pyval) :=
  match tokens_data with
  | [] => ret verified_tokens
  | token :: rest =>
      analyzed_token <- analyze_token token ;;
      if py_truthy analyzed_token
      then analyze_tokens_loop rest (verified_tokens ++ [analyzed_token])%list
      else analyze_tokens_loop rest verified_tokens
  end.

Definition analyze_tokens (tokens_data : list pyval) : M (list pyval) :=
  analyze_tokens_loop tokens_data [].

End CryptoSecurityFilter.

End crypto_security.

(* ===================================================================== *)
(** ** Vocabulary of the statements *)
(* ===================================================================== *)

(** A decimal literal read as a float. *)
Definition float_lit (q : Q) : pynum := NFloat (FFin (b64 q)).

(** The six scores [0.0, 0.2, 0.4, 0.6, 0.8, 1.0]. *)
Definition score_values : list pynum :=
  [float_lit 0; float_lit (2 # 10); float_lit (4 # 10);
   float_lit (6 # 10); float_lit (8 # 10); float_lit 1].

Definition passed (c : bool) : Z := if c then 1 else 0.

(** [k / 5] as the float Python computes. *)
Definition fifths (k : Z) : pynum := NFloat (FFin (b64 (Qmake k 5))).

(** [volume_data.get(key, dflt)] when it is a number. *)
Definition metric (d : gmap string pyval) (key : string) (dflt : pyval)
  : option pynum :=
  as_num (default dflt (d !! key)).

(** A run leaves the blacklist, its file and the file system alone. *)
Definition same_store (s s' : state) : Prop :=
  blacklists s' = blacklists s
  /\ blacklist_file s' = blacklist_file s
  /\ fs_writable s' = fs_writable s.

(** [s] with the events [evs] (most recent first) added to its trace. *)
Definition with_events (s : state) (evs : list event) : state :=
  mkState (blacklists s) (blacklist_file s) (fs_writable s)
          (evs ++ trace s)%list.

(** Every event a computation emits satisfies [P], and it only adds to the
    trace. *)
Definition emits {A} (P : event -> Prop) (m : M A) : Prop :=
  forall s, exists evs,
    emitted s (snd (m s)) evs /\ Forall P evs.

(** A computation that returns a value from every state. *)
Definition never_raises {A} (m : M A) : Prop :=
  forall s, exists a s', m s = (Ok a, s').

Definition is_call (ev : event) : Prop :=
  match ev with
  | Call _ _ => True
  | Log _ _ _ => False
  end.

(** The log record of a suspicious-volume rejection. *)
Definition volume_rejection (ev : event) : Prop :=
  match ev with
  | Log WARNING fmt _ => fmt = "Suspicious volume detected for {}"
  | _ => False
  end.

(** A log record of the blacklist manager or of a handler: neither a call
    into a classifier nor a suspicious-volume rejection. *)
Definition housekeeping (ev : event) : Prop :=
  ~ is_call ev /\ ~ volume_rejection ev.

(** The calls among some events, most recent first as in the trace. *)
Fixpoint calls_of (evs : list event) : list event :=
  match evs with
  | [] => []
  | Call callee arg :: rest => Call callee arg :: calls_of rest
  | Log _ _ _ :: rest => calls_of rest
  end.

(** One call of [validate_token] per entry of the registry, each with the
    token's address, in the order of the registry. *)
Definition backend_calls (apis : list (string * api_integrations.client))
    (token_address : pyval) : list event :=
  map (fun item => Call (fst item) token_address) apis.

(** [address] is stored in the category [cat]. *)
Definition stored (cat a : string) (s : state) : Prop :=
  exists members, blacklists s !! cat = Some members /\ a ∈ members.

(** A string that [lower] leaves alone. *)
Definition is_lowercase (a : string) : Prop := lower a = a.

(** The entries of the blacklist file are lowercase, as [_save_blacklists]
    writes them. *)
Definition file_lowercase (f : file_state) : Prop :=
  forall data key entries a,
    f = FileDoc (Some data) -> data !! key = Some entries -> a ∈ entries ->
    is_lowercase a.

(** The mutations a client of [BlacklistManager] can ask for. *)
Inductive operation :=
| Add (blacklist_type : string) (address : pyval)
| Remove (blacklist_type : string) (address : pyval)
| Clear (blacklist_type : string).

Definition run_operation (o : operation) : M unit :=
  match o with
  | Add bt a => blacklist_manager.add_to_blacklist bt a
  | Remove bt a => blacklist_manager.remove_from_blacklist bt a
  | Clear bt => blacklist_manager.clear_blacklist bt
  end.

(** The state after [BlacklistManager()] and then the operations [ops],
    one call after the other (a call that raises leaves its state). *)
Definition after_operations (ops : list operation) (s : state) : state :=
  fold_left (fun st o => snd (run_operation o st)) ops
            (snd (blacklist_manager.init s)).

(** The four categories are present, as after [BlacklistManager.__init__]. *)
Definition categories_present (s : state) : Prop :=
  dom (blacklists s) = dom blacklist_manager.empty_blacklists.

(** Every stored address is lowercase. *)
Definition all_lowercase (s : state) : Prop :=
  forall cat members a,
    blacklists s !! cat = Some members -> a ∈ members -> is_lowercase a.

Definition is_rejected (v : pyval) : bool :=
  match v with
  | PNone => true
  | _ => false
  end.

(** The verdicts of a batch: each token analysed in turn, in the state its
    predecessors left. *)
Fixpoint verdicts (analyze_one : pyval -> M pyval) (tokens : list pyval)
  : M (list pyval) :=
  match tokens with
  | [] => ret []
  | token :: rest =>
      v <- analyze_one token ;;
      vs <- verdicts analyze_one rest ;;
      ret (v :: vs)
  end.

(** [v] is the record [token] extended with the two fields [k1], [k2]
    (and possibly others). *)
Definition enriches (k1 k2 : string) (token v : pyval) : Prop :=
  exists d d',
    token = PDict d /\ v = PDict d'
    /\ is_Some (d' !! k1) /\ is_Some (d' !! k2)
    /\ forall k, k ∉ [k1; k2; "api_analysis"] -> d' !! k = d !! k.

Definition is_dict (v : pyval) : Prop :=
  match v with
  | PDict _ => True
  | _ => False
  end.

(** What is asked of a volume scorer: it returns from every input, its
    score is one of the six values, a fault inside it gives 0.0, and on a
    dictionary whose metrics (absent ones at their defaults) are numbers
    the score is the number of checks that hold, over five.  Scores are
    compared as numbers ([1 == 1.0]). *)
Definition volume_scorer_contract (analyze_volume : pyval -> M pynum) : Prop :=
  forall volume_data s,
    exists score s',
      analyze_volume volume_data s = (Ok score, s')
      /\ same_store s s'
      /\ Exists (fun v => num_eqb score v = true) score_values
      /\ (forall e, volume_checks volume_data = Raise e ->
            score = NFloat float_0_0)
      /\ (forall d total v1h v24h ratio spike,
            volume_data = PDict d ->
            metric d "total_volume" (PInt 0) = Some total ->
            metric d "1h_volume" (PInt 0) = Some v1h ->
            metric d "24h_volume" (PInt 0) = Some v24h ->
            metric d "volume_liquidity_ratio" (PInt 0) = Some ratio ->
            metric d "volume_spike_ratio" (PInt 1) = Some spike ->
            num_eqb score
              (fifths (passed (num_gt total (NInt 1000))
                       + passed (num_gt v1h (NInt 0))
                       + passed (num_gt v24h (NInt 0))
                       + passed (num_gt ratio (NFloat float_0_1))
                       + passed (num_lt spike (NInt 2)))) = true).

(** Every value a computation returns satisfies [Q]. *)
Definition returns_only {A} (Q : A -> Prop) (m : M A) : Prop :=
  forall s a s', m s = (Ok a, s') -> Q a.

(** The outcome [out] of a run from [s] is a rejection for suspicious
    volume: no record is returned and the rejection is logged. *)
Definition rejected_for_volume (s : state) (out : result pyval * state) : Prop :=
  fst out = Ok PNone
  /\ exists evs, emitted s (snd out) evs /\ Exists volume_rejection evs.

(** What is asked of a batch entry point [analyze_many] built on
    [analyze_one], on the input [tokens]: it returns; its output is the
    list of verdicts, in input order, without the rejections; every
    verdict kept is its token enriched with the fields [k1] and [k2]. *)
Definition batch_contract (analyze_one : pyval -> M pyval)
    (analyze_many : list pyval -> M (list pyval)) (k1 k2 : string)
    (tokens : list pyval) : Prop :=
  forall s,
    exists vs out s',
      verdicts analyze_one tokens s = (Ok vs, s')
      /\ analyze_many tokens s = (Ok out, s')
      /\ out = List.filter (fun v => negb (is_rejected v)) vs
      /\ Forall2 (fun token v => v = PNone \/ enriches k1 k2 token v) tokens vs
      /\ (length out <= length tokens)%nat.

(** *** Concrete inputs used by the examples *)

Definition fresh_state : state :=
  mkState blacklist_manager.empty_blacklists FileMissing true [].

(** The sample token of [main()], with a given address. *)
Definition sample_record (address : string) : gmap string pyval :=
  <["address" := PStr address]> (<["symbol" := PStr "TEST"]>
  (<["volume" := PInt 5000]> (<["volume_1h" := PInt 500]>
  (<["volume_24h" := PInt 10000]>
  (<["developer_address" := PStr "0x456dev_address"]> ∅))))).

Definition sample_token (address : string) : pyval :=
  PDict (sample_record address).

(** The low-volume token of the unit tests. *)
Definition low_volume_record : gmap string pyval :=
  <["address" := PStr "0x456token_address"]> (<["symbol" := PStr "BAD"]>
  (<["volume" := PInt 100]> (<["volume_1h" := PInt 0]>
  (<["volume_24h" := PInt 0]>
  (<["volume_liquidity_ratio" := PFloat (FFin (b64 (5 # 100)))]>
  (<["volume_spike" := PInt 3]> ∅)))))).

Definition low_volume_token : pyval := PDict low_volume_record.

(** A risk-lookup stub that answers HIGH_RISK, not bundled. *)
Definition high_risk_stub (token_address : pyval)
  : result crypto_filter_script.response :=
  Ok (crypto_filter_script.mkResponse token_address "HIGH_RISK" false false false []).

(** A transport that fails. *)
Definition failing_request (token_address : pyval)
  : result crypto_filter_script.response :=
  Raise (Exn OtherException "API error").

(** A backend that answers with an empty report. *)
Definition stub_backend : string * api_integrations.client :=
  ("stub", fun _ => Ok (PDict ∅)).

(** A blacklist file edited by hand, with an address in upper case. *)
Definition mixed_case_file : file_state :=
  FileDoc (Some (<["tokens" := ["0xABC"]]> ∅)).

(** The state [BlacklistManager()] starts in when that file is on disk. *)
Definition loaded_mixed_case : state :=
  snd (blacklist_manager.init (mkState ∅ mixed_case_file true [])).

(** The sample token with an empty address. *)
Definition empty_address_token : pyval := sample_token "".

(* ===================================================================== *)
(** ** [crypto_security.py]: the methods of [ContractRisk] *)
(* ===================================================================== *)

(** The [descriptions] dictionary of [ContractRisk.description]. *)
Definition descriptions : list (ContractRisk * string) :=
  [(SAFE, "No significant risks detected.");
   (LOW_RISK, "Minor risks present, but generally safe.");
   (MEDIUM_RISK, "Moderate risks present, caution advised.");
   (HIGH_RISK, "High risks present, significant caution required.");
   (DANGEROUS, "Severe risks present, avoid interaction.")].

(** [d[key]] on a dictionary keyed by risk levels. *)
Fixpoint risk_getitem (d : list (ContractRisk * string)) (key : ContractRisk)
  : result string :=
  match d with
  | [] => Raise (Exn KeyError (ContractRisk_name key))
  | (k, v) :: rest => if bool_decide (k = key) then Ok v else risk_getitem rest key
  end.

(** [ContractRisk.description]: [return descriptions[self]]. *)
Definition description (self : ContractRisk) : result string :=
  risk_getitem descriptions self.

(** [ContractRisk.log_message]. *)
Definition log_message (self : ContractRisk) : result string :=
  d <~ description self ;;
  Ok ("Contract risk level: " ++ ContractRisk_name self ++ " - " ++ d).

(* ===================================================================== *)
(** ** [api_integrations.py]: [APIConfig] and [BaseAPIClient] *)
(* ===================================================================== *)

Module base_api_client.

(** [@dataclass class APIConfig]. *)
Record APIConfig := mkAPIConfig {
  api_key : string;
  endpoint : string;
  timeout : Z;
  max_retries : Z
}.

(** [APIConfig(api_key, endpoint)]: the other fields at their defaults. *)
Definition APIConfig_default (key url : string) : APIConfig :=
  mkAPIConfig key url 30 3.

(** [self.headers], set in [BaseAPIClient.__init__]. *)
Definition headers (config : APIConfig) : list (string * string) :=
  [("Authorization", "Bearer " ++ api_key config);
   ("Content-Type", "application/json")].

(** [endpoint.lstrip('/')]. *)
Fixpoint lstrip_slash (path : string) : string :=
  match path with
  | String c rest => if Ascii.eqb c "/"%char then lstrip_slash rest else path
  | EmptyString => EmptyString
  end.

(** The [url] argument of [session.request]. *)
Definition request_url (config : APIConfig) (path : string) : string :=
  endpoint config ++ "/" ++ lstrip_slash path.

(** [range(n)]; empty when [n] is not positive. *)
Definition py_range (n : Z) : list nat := seq 0 (Z.to_nat n).

Section BaseAPIClient.

Variable config : APIConfig.

(** What one request gives: [session.request(method, url, headers,
    timeout)], then [raise_for_status()] and [response.json()].  The
    outcome may differ from one attempt to the next. *)
Variable send : string -> string -> nat -> result pyval.

(** The [for attempt in range(...)] loop of [_make_request].  A request
    that succeeds returns from the function; the last attempt re-raises
    what it caught; when the loop runs out the function returns [None]. *)
Fixpoint _make_request_loop (method url : string) (attempts : list nat)
  : M pyval :=
  match attempts with
  | [] => ret PNone
  | attempt :: rest =>
      try_except
        (emit (Call url (PInt (Z.of_nat attempt))) ;;;
         lift (send method url attempt))
        (fun e =>
           if Z.of_nat attempt =? max_retries config - 1 then
             log ERROR "API request failed after {} attempts: {}"
                 [PInt (max_retries config); PStr (exn_str e)] ;;;
             lift (Raise e)
           else
             log WARNING "API request attempt {} failed: {}"
                 [PInt (Z.of_nat attempt + 1); PStr (exn_str e)] ;;;
             _make_request_loop method url rest)
  end.

Definition _make_request (method path : string) : M pyval :=
  _make_request_loop method (request_url config path)
                     (py_range (max_retries config)).

End BaseAPIClient.

End base_api_client.

(** *** Vocabulary of the further statements *)

(** The number of calls among some events. *)
Fixpoint count_calls (evs : list event) : nat :=
  match evs with
  | [] => 0
  | Call _ _ :: rest => S (count_calls rest)
  | Log _ _ _ :: rest => count_calls rest
  end.

(** The number of log records of a level among some events. *)
Fixpoint count_logs (lv : level) (evs : list event) : nat :=
  match evs with
  | [] => 0
  | Log lv' _ _ :: rest =>
      match lv, lv' with
      | DEBUG, DEBUG | INFO, INFO | WARNING, WARNING | ERROR, ERROR =>
          S (count_logs lv rest)
      | _, _ => count_logs lv rest
      end
  | Call _ _ :: rest => count_logs lv rest
  end.

(** The five metric keys [analyze_volume] reads. *)
Definition metric_keys : list string :=
  ["total_volume"; "1h_volume"; "24h_volume"; "volume_liquidity_ratio";
   "volume_spike_ratio"].

(** The five fields of a token record the pipelines read them from. *)
Definition volume_fields : list string :=
  ["volume"; "volume_1h"; "volume_24h"; "volume_liquidity_ratio";
   "volume_spike"].

(** A computation keeps a property of states, whether it returns or
    raises. *)
Definition keeps {A} (R : state -> Prop) (m : M A) : Prop :=
  forall s, R s -> R (snd (m s)).

(** A property of states that does not look at the trace. *)
Definition ignores_trace (R : state -> Prop) : Prop :=
  forall s evs, R s -> R (with_events s evs).

(* ===================================================================== *)
(** ** Running the monad *)
(* ===================================================================== *)

Section Run.
Context {A B : Type}.

Lemma bind_ok (m : M A) (k : A -> M B) s a s1 :
  m s = (Ok a, s1) -> bind m k s = k a s1.
Proof. intros H. unfold bind. now rewrite H. Qed.

Lemma bind_raise (m : M A) (k : A -> M B) s e s1 :
  m s = (Raise e, s1) -> bind m k s = (Raise e, s1).
Proof. intros H. unfold bind. now rewrite H. Qed.

Lemma try_ok (m : M A) h s a s1 :
  m s = (Ok a, s1) -> try_except m h s = (Ok a, s1).
Proof. intros H. unfold try_except. now rewrite H. Qed.

Lemma try_raise (m : M A) h s e s1 :
  m s = (Raise e, s1) -> try_except m h s = h e s1.
Proof. intros H. unfold try_except. now rewrite H. Qed.

(** A [try] whose handler always returns, always returns. *)
Lemma try_except_total (m : M A) h :
  (forall e, never_raises (h e)) -> never_raises (try_except m h).
Proof.
  intros Hh s. unfold try_except.
  destruct (m s) as [[a | e] s1]; [now exists a, s1 | apply Hh].
Qed.
End Run.

Lemma log_run lv fmt args s :
  log lv fmt args s =
  (Ok tt, mkState (blacklists s) (blacklist_file s) (fs_writable s)
                  (Log lv fmt args :: trace s)).
Proof. reflexivity. Qed.

(* ===================================================================== *)
(** ** Volume scoring *)
(* ===================================================================== *)

Lemma rbind_ok_inv {A B} (r : result A) (k : A -> result B) b :
  rbind r k = Ok b -> exists a, r = Ok a /\ k a = Ok b.
Proof. destruct r as [a | e]; simpl; [eauto | discriminate]. Qed.

Lemma volume_checks_length volume_data checks :
  volume_checks volume_data = Ok checks -> length checks = 5%nat.
Proof.
  unfold volume_checks. intros H.
  repeat (apply rbind_ok_inv in H; destruct H as [? [_ H]]).
  now inversion H.
Qed.

Lemma py_sum_cases checks :
  length checks = 5%nat -> In (py_sum checks) [0; 1; 2; 3; 4; 5].
Proof.
  intros H.
  destruct checks as [| c1 [| c2 [| c3 [| c4 [| c5 [| c6 rest]]]]]];
    try discriminate.
  destruct c1, c2, c3, c4, c5; vm_compute; tauto.
Qed.

(** On a dictionary whose five metrics are numbers, the checks are the
    documented comparisons. *)
Lemma volume_checks_numeric d total v1h v24h ratio spike :
  metric d "total_volume" (PInt 0) = Some total ->
  metric d "1h_volume" (PInt 0) = Some v1h ->
  metric d "24h_volume" (PInt 0) = Some v24h ->
  metric d "volume_liquidity_ratio" (PInt 0) = Some ratio ->
  metric d "volume_spike_ratio" (PInt 1) = Some spike ->
  volume_checks (PDict d) =
  Ok [num_gt total (NInt 1000); num_gt v1h (NInt 0); num_gt v24h (NInt 0);
      num_gt ratio (NFloat float_0_1); num_lt spike (NInt 2)].
Proof.
  unfold metric, volume_checks, py_get, py_gt, py_lt. simpl.
  intros -> -> -> -> ->. reflexivity.
Qed.

(** [sum(checks)] counts the checks that hold. *)
Lemma py_sum_five c1 c2 c3 c4 c5 :
  py_sum [c1; c2; c3; c4; c5]
  = passed c1 + passed c2 + passed c3 + passed c4 + passed c5.
Proof. now destruct c1, c2, c3, c4, c5. Qed.

Lemma package_analyze_volume_ok volume_data checks s :
  volume_checks volume_data = Ok checks ->
  volume_analyzer.analyze_volume volume_data s = (Ok (fifths (py_sum checks)), s).
Proof.
  intros H. pose proof (volume_checks_length _ _ H) as Hlen.
  unfold volume_analyzer.analyze_volume, try_except, bind, lift, ret.
  rewrite H, Hlen. reflexivity.
Qed.

Lemma script_analyze_volume_ok volume_data checks s :
  volume_checks volume_data = Ok checks ->
  crypto_filter_script.analyze_volume volume_data s
  = (Ok (py_max (NInt 0) (py_min (NInt 1) (fifths (py_sum checks)))), s).
Proof.
  intros H. pose proof (volume_checks_length _ _ H) as Hlen.
  unfold crypto_filter_script.analyze_volume, try_except, bind, lift, ret.
  rewrite H, Hlen. reflexivity.
Qed.

Lemma package_analyze_volume_fault volume_data e s :
  volume_checks volume_data = Raise e ->
  volume_analyzer.analyze_volume volume_data s
  = (Ok (NFloat float_0_0),
     mkState (blacklists s) (blacklist_file s) (fs_writable s)
       (Log ERROR "Volume analysis error: {}" [PStr (exn_str e)] :: trace s)).
Proof.
  intros H.
  unfold volume_analyzer.analyze_volume, try_except, bind, lift, ret.
  now rewrite H.
Qed.

Lemma script_analyze_volume_fault volume_data e s :
  volume_checks volume_data = Raise e ->
  crypto_filter_script.analyze_volume volume_data s
  = (Ok (NFloat float_0_0),
     mkState (blacklists s) (blacklist_file s) (fs_writable s)
       (Log ERROR "Volume analysis error: {}" [PStr (exn_str e)] :: trace s)).
Proof.
  intros H.
  unfold crypto_filter_script.analyze_volume, try_except, bind, lift, ret.
  now rewrite H.
Qed.

Lemma same_store_refl s : same_store s s.
Proof. now unfold same_store. Qed.

Lemma same_store_trans s1 s2 s3 :
  same_store s1 s2 -> same_store s2 s3 -> same_store s1 s3.
Proof. unfold same_store. intros (-> & -> & ->) (-> & -> & ->). tauto. Qed.

Lemma same_store_trace s evs :
  same_store s (mkState (blacklists s) (blacklist_file s) (fs_writable s) evs).
Proof. now unfold same_store. Qed.

Create HintDb store.
#[local] Hint Resolve same_store_refl same_store_trace : store.

Lemma five_checks (checks : list bool) :
  length checks = 5%nat ->
  exists c1 c2 c3 c4 c5, checks = [c1; c2; c3; c4; c5].
Proof.
  destruct checks as [| c1 [| c2 [| c3 [| c4 [| c5 [| c6 rest]]]]]];
    try discriminate.
  intros _. now exists c1, c2, c3, c4, c5.
Qed.

Lemma package_scorer_contract :
  volume_scorer_contract volume_analyzer.analyze_volume.
Proof.
  intros volume_data s.
  destruct (volume_checks volume_data) as [checks | e] eqn:Hc.
  - destruct (five_checks checks (volume_checks_length _ _ Hc))
      as (c1 & c2 & c3 & c4 & c5 & ->).
    eexists _, s. split; [apply package_analyze_volume_ok; exact Hc |].
    split; [auto with store |]. split; [| split].
    + destruct c1, c2, c3, c4, c5; vm_compute; auto 10.
    + discriminate.
    + intros d total v1h v24h ratio spike -> H1 H2 H3 H4 H5.
      rewrite (volume_checks_numeric _ _ _ _ _ _ H1 H2 H3 H4 H5) in Hc.
      injection Hc as <- <- <- <- <-. rewrite py_sum_five.
      destruct (num_gt total _), (num_gt v1h _), (num_gt v24h _),
        (num_gt ratio _), (num_lt spike _); reflexivity.
  - eexists _, _. split; [apply package_analyze_volume_fault; exact Hc |].
    split; [auto with store |]. split; [| split].
    + vm_compute; auto.
    + reflexivity.
    + intros d total v1h v24h ratio spike -> H1 H2 H3 H4 H5.
      rewrite (volume_checks_numeric _ _ _ _ _ _ H1 H2 H3 H4 H5) in Hc.
      discriminate.
Qed.

Lemma script_scorer_contract :
  volume_scorer_contract crypto_filter_script.analyze_volume.
Proof.
  intros volume_data s.
  destruct (volume_checks volume_data) as [checks | e] eqn:Hc.
  - destruct (five_checks checks (volume_checks_length _ _ Hc))
      as (c1 & c2 & c3 & c4 & c5 & ->).
    eexists _, s. split; [apply script_analyze_volume_ok; exact Hc |].
    split; [auto with store |]. split; [| split].
    + destruct c1, c2, c3, c4, c5; vm_compute; auto 10.
    + discriminate.
    + intros d total v1h v24h ratio spike -> H1 H2 H3 H4 H5.
      rewrite (volume_checks_numeric _ _ _ _ _ _ H1 H2 H3 H4 H5) in Hc.
      injection Hc as <- <- <- <- <-. rewrite py_sum_five.
      destruct (num_gt total _), (num_gt v1h _), (num_gt v24h _),
        (num_gt ratio _), (num_lt spike _); reflexivity.
  - eexists _, _. split; [apply script_analyze_volume_fault; exact Hc |].
    split; [auto with store |]. split; [| split].
    + vm_compute; auto.
    + reflexivity.
    + intros d total v1h v24h ratio spike -> H1 H2 H3 H4 H5.
      rewrite (volume_checks_numeric _ _ _ _ _ _ H1 H2 H3 H4 H5) in Hc.
      discriminate.
Qed.

(** C3.  Both volume analyzers ([volume_analyzer .py] and the clamped one
    of [crypto-filter-script.py]) meet the scorer contract: from every
    input and state they return a score and never raise; the score is one
    of 0.0, 0.2, 0.4, 0.6, 0.8, 1.0; when the five checks cannot be
    evaluated the score is 0.0; and on a dictionary whose metrics, absent
    ones replaced by 0, 0, 0, 0 and 1, are numbers, the score is the count
    of [total_volume > 1000], [1h_volume > 0], [24h_volume > 0],
    [volume_liquidity_ratio > 0.1], [volume_spike_ratio < 2] that hold,
    divided by five. *)
Theorem analyze_volume_five_checks :
  volume_scorer_contract volume_analyzer.analyze_volume
  /\ volume_scorer_contract crypto_filter_script.analyze_volume.
Proof. split; [apply package_scorer_contract | apply script_scorer_contract]. Qed.

(** The unit tests of [analyze_volume]: a partial score of 3 out of 5, and
    0.0 for a record that is not a dictionary. *)
Example analyze_volume_partial_score :
  fst (volume_analyzer.analyze_volume
         (PDict (<["total_volume" := PInt 2000]> (<["1h_volume" := PInt 0]>
                (<["24h_volume" := PInt 500]>
                (<["volume_liquidity_ratio" := PFloat (FFin (b64 (2 # 10)))]>
                (<["volume_spike_ratio" := PFloat (FFin 3)]> ∅))))))
         fresh_state)
  = Ok (float_lit (6 # 10))
  /\ fst (crypto_filter_script.analyze_volume PNone fresh_state)
     = Ok (float_lit 0).
Proof. split; vm_compute; reflexivity. Qed.

(* ===================================================================== *)
(** ** The risk classifier *)
(* ===================================================================== *)

Lemma check_contract_run request a s :
  crypto_filter_script.check_contract request a s =
  match request a with
  | Ok mock =>
      match ContractRisk_getitem (crypto_filter_script.r_risk_level mock) with
      | Ok risk =>
          (Ok {| token_address := a;
                 risk_level := risk;
                 is_honeypot := crypto_filter_script.r_is_honeypot mock;
                 is_verified := crypto_filter_script.r_is_verified mock;
                 is_bundled := crypto_filter_script.r_is_bundled mock;
                 volume_legitimacy_score := float_0_0;
                 potential_issues := crypto_filter_script.r_potential_issues mock |},
           with_events s [Call "RugCheckAPI.check_contract" a])
      | Raise e =>
          (Ok (ContractAnalysis_default a),
           with_events s [Log ERROR "RugCheck API error for {}: {}"
                              [a; PStr (exn_str e)];
                          Call "RugCheckAPI.check_contract" a])
      end
  | Raise e =>
      (Ok (ContractAnalysis_default a),
       with_events s [Log ERROR "RugCheck API error for {}: {}"
                          [a; PStr (exn_str e)];
                      Call "RugCheckAPI.check_contract" a])
  end.
Proof.
  unfold crypto_filter_script.check_contract, try_except, bind, lift, ret, log, emit.
  simpl. destruct (request a) as [mock | e]; [| reflexivity].
  destruct (ContractRisk_getitem _); reflexivity.
Qed.

(** The classifier leaves the blacklist and its file alone. *)
Lemma check_contract_store request a s ca s' :
  crypto_filter_script.check_contract request a s = (Ok ca, s') ->
  same_store s s'.
Proof.
  rewrite check_contract_run.
  destruct (request a) as [mock | e];
    [destruct (ContractRisk_getitem _) |];
    intros H; injection H as <- <-; now unfold same_store.
Qed.

(** C7.  [check_contract] returns from every address, state and transport
    and never raises.  Whenever the lookup fails inside it (the request
    raises, or the answer names no risk level) the analysis is the
    fail-closed default: the given address, HIGH_RISK, no issues, the three
    flags false and a volume legitimacy score of 0; the failure is logged at
    error level.  The blacklist and its file are not touched. *)
Theorem check_contract_fail_closed
    (request : pyval -> result crypto_filter_script.response)
    (address : pyval) (s : state) :
  exists analysis s',
    crypto_filter_script.check_contract request address s = (Ok analysis, s')
    /\ token_address analysis = address
    /\ same_store s s'
    /\ ((exists e, request address = Raise e
                   \/ exists mock, request address = Ok mock
                        /\ ContractRisk_getitem
                             (crypto_filter_script.r_risk_level mock) = Raise e) ->
        analysis = ContractAnalysis_default address
        /\ risk_level analysis = HIGH_RISK
        /\ potential_issues analysis = []
        /\ is_honeypot analysis = false
        /\ is_verified analysis = false
        /\ is_bundled analysis = false
        /\ volume_legitimacy_score analysis = float_0_0
        /\ exists args, head (trace s') = Some (Log ERROR "RugCheck API error for {}: {}" args)).
Proof.
  rewrite check_contract_run.
  destruct (request address) as [mock | e] eqn:Hreq.
  - destruct (ContractRisk_getitem _) as [risk | e] eqn:Hrisk.
    + eexists _, _. split; [reflexivity |].
      split; [reflexivity |]. split; [now unfold same_store |].
      intros [e [H | (mock' & Hm & H)]]; [discriminate |].
      injection Hm as <-. congruence.
    + eexists _, _. split; [reflexivity |].
      split; [reflexivity |]. split; [now unfold same_store |].
      intros _. repeat split. now eexists.
  - eexists _, _. split; [reflexivity |].
    split; [reflexivity |]. split; [now unfold same_store |].
    intros _. repeat split. now eexists.
Qed.

(** The simulated lookup of the source always answers LOW_RISK, verified;
    a failing transport gives the HIGH_RISK default. *)
Example check_contract_simulated :
  fst (crypto_filter_script.check_contract
         crypto_filter_script.simulated_request (PStr "0xValidAddress") fresh_state)
  = Ok (mkContractAnalysis (PStr "0xValidAddress") LOW_RISK false true false
          float_0_0 [])
  /\ fst (crypto_filter_script.check_contract
            failing_request (PStr "0xInvalidAddress") fresh_state)
     = Ok (ContractAnalysis_default (PStr "0xInvalidAddress")).
Proof. split; reflexivity. Qed.

(* ===================================================================== *)
(** ** What a computation emits *)
(* ===================================================================== *)

Section Emits.
Context (P : event -> Prop).

Lemma emits_ret {A} (a : A) : emits P (ret a).
Proof. intros s. exists []. now split. Qed.

Lemma emits_lift {A} (r : result A) : emits P (lift r).
Proof. intros s. exists []. now split. Qed.

Lemma emits_emit ev : P ev -> emits P (emit ev).
Proof. intros H s. exists [ev]. split; [reflexivity | now constructor]. Qed.

Lemma emits_log lv fmt args : P (Log lv fmt args) -> emits P (log lv fmt args).
Proof. apply emits_emit. Qed.

Lemma emits_bind {A B} (m : M A) (k : A -> M B) :
  emits P m -> (forall a, emits P (k a)) -> emits P (bind m k).
Proof.
  intros Hm Hk s. unfold bind.
  destruct (Hm s) as (evs1 & Ht1 & Hp1).
  destruct (m s) as [[a | e] s1]; simpl in *.
  - destruct (Hk a s1) as (evs2 & Ht2 & Hp2).
    exists (evs2 ++ evs1)%list. split.
    + unfold emitted in *. rewrite Ht2, Ht1. now rewrite app_assoc.
    + now apply Forall_app.
  - now exists evs1.
Qed.

Lemma emits_try {A} (m : M A) (h : exn -> M A) :
  emits P m -> (forall e, emits P (h e)) -> emits P (try_except m h).
Proof.
  intros Hm Hh s. unfold try_except.
  destruct (Hm s) as (evs1 & Ht1 & Hp1).
  destruct (m s) as [[a | e] s1]; simpl in *.
  - now exists evs1.
  - destruct (Hh e s1) as (evs2 & Ht2 & Hp2).
    exists (evs2 ++ evs1)%list. split.
    + unfold emitted in *. rewrite Ht2, Ht1. now rewrite app_assoc.
    + now apply Forall_app.
Qed.

Lemma emits_get_blacklists : emits P get_blacklists.
Proof. intros s. exists []. now split. Qed.

Lemma emits_set_blacklists bl : emits P (set_blacklists bl).
Proof. intros s. exists []. now split. Qed.

Lemma emits_safe_load : emits P blacklist_manager.safe_load.
Proof.
  intros s. exists []. split; [| constructor].
  unfold blacklist_manager.safe_load. now destruct (blacklist_file s).
Qed.

Lemma emits_dump data : emits P (blacklist_manager.dump data).
Proof.
  intros s. exists []. split; [| constructor].
  unfold blacklist_manager.dump. now destruct (fs_writable s).
Qed.
End Emits.

Lemma emits_weaken {A} (P Q : event -> Prop) (m : M A) :
  (forall ev, P ev -> Q ev) -> emits P m -> emits Q m.
Proof.
  intros HPQ Hm s. destruct (Hm s) as (evs & Ht & Hp).
  exists evs. split; [assumption |]. eapply Forall_impl; eassumption.
Qed.

Create HintDb emits.
#[local] Hint Resolve emits_ret emits_lift emits_get_blacklists
  emits_set_blacklists emits_safe_load emits_dump : emits.

Ltac emits_step :=
  first
    [ apply emits_bind; [| intros ? ]
    | apply emits_try; [| intros ? ]
    | apply emits_log; split; simpl; [tauto | try tauto; try discriminate; try congruence]
    | solve [auto with emits] ].

Lemma emits_save : emits housekeeping blacklist_manager._save_blacklists.
Proof.
  unfold blacklist_manager._save_blacklists. repeat emits_step.
Qed.
#[local] Hint Resolve emits_save : emits.

Lemma emits_add bt a :
  emits housekeeping (blacklist_manager.add_to_blacklist bt a).
Proof.
  unfold blacklist_manager.add_to_blacklist.
  destruct (negb (py_truthy a)); [repeat emits_step |].
  apply emits_bind; [auto with emits | intros bl].
  destruct (bl !! bt); repeat emits_step.
Qed.

Lemma emits_remove bt a :
  emits housekeeping (blacklist_manager.remove_from_blacklist bt a).
Proof.
  unfold blacklist_manager.remove_from_blacklist.
  apply emits_bind; [auto with emits | intros bl].
  destruct (bl !! bt); repeat emits_step.
Qed.

Lemma emits_clear bt :
  emits housekeeping (blacklist_manager.clear_blacklist bt).
Proof.
  unfold blacklist_manager.clear_blacklist.
  apply emits_bind; [auto with emits | intros bl].
  destruct (bl !! bt); repeat emits_step.
Qed.
#[local] Hint Resolve emits_add emits_remove emits_clear : emits.

(* ===================================================================== *)
(** ** The blacklist store *)
(* ===================================================================== *)

Lemma save_run s :
  exists s',
    blacklist_manager._save_blacklists s = (Ok tt, s')
    /\ blacklists s' = blacklists s
    /\ fs_writable s' = fs_writable s
    /\ blacklist_file s' =
       if fs_writable s then FileDoc (Some (elements <$> blacklists s))
       else blacklist_file s.
Proof.
  unfold blacklist_manager._save_blacklists, blacklist_manager.dump,
    try_except, bind, get_blacklists, log, emit.
  destruct (fs_writable s) eqn:Hw; simpl; rewrite ?Hw; eexists; eauto.
Qed.

Lemma truthy_str a : a <> "" -> py_truthy (PStr a) = true.
Proof.
  intros H. simpl. destruct (String.eqb a "") eqn:E; [| reflexivity].
  now apply String.eqb_eq in E.
Qed.

(** Adding a non-empty string to an existing category stores its lowercase
    form. *)
Lemma add_run_str bt a members s :
  a <> "" ->
  blacklists s !! bt = Some members ->
  exists s',
    blacklist_manager.add_to_blacklist bt (PStr a) s = (Ok tt, s')
    /\ blacklists s' = <[bt := {[lower a]} ∪ members]> (blacklists s).
Proof.
  intros Ha Hbt. unfold blacklist_manager.add_to_blacklist.
  rewrite (truthy_str a Ha). simpl.
  unfold bind at 1. unfold get_blacklists at 1. rewrite Hbt.
  unfold bind at 1. unfold lift, py_lower.
  unfold bind at 1. unfold set_blacklists at 1.
  set (s1 := mkState _ _ _ _).
  destruct (save_run s1) as (s2 & Hrun & Hbl & _ & _).
  unfold bind at 1. rewrite Hrun.
  eexists. split; [reflexivity |]. simpl. now rewrite Hbl.
Qed.

(** No addition removes a stored address. *)
Lemma stored_add cat x bt a s :
  stored cat x s ->
  stored cat x (snd (blacklist_manager.add_to_blacklist bt a s)).
Proof.
  intros (members & Hcat & Hx). unfold blacklist_manager.add_to_blacklist.
  destruct (negb (py_truthy a)); [now exists members |].
  unfold bind at 1. unfold get_blacklists at 1.
  destruct (blacklists s !! bt) as [ms |] eqn:Hbt; [| now exists members].
  unfold bind at 1. unfold lift.
  destruct (py_lower a) as [la | e]; [| now exists members].
  unfold bind at 1. unfold set_blacklists at 1.
  set (s1 := mkState _ _ _ _).
  destruct (save_run s1) as (s2 & Hrun & Hbl & _ & _).
  unfold bind at 1. rewrite Hrun. simpl. unfold stored. rewrite Hbl. simpl.
  destruct (decide (bt = cat)) as [-> | Hne].
  - exists ({[la]} ∪ ms). rewrite lookup_insert_eq. split; [reflexivity |].
    rewrite Hcat in Hbt. injection Hbt as <-. set_solver.
  - exists members. now rewrite lookup_insert_ne.
Qed.

Lemma stored_same_store cat x s s' :
  same_store s s' -> stored cat x s -> stored cat x s'.
Proof. intros (Hbl & _) (members & H & Hx). exists members. now rewrite Hbl. Qed.

(** A stored lowercase form answers the membership test. *)
Lemma is_blacklisted_stored cat a s :
  stored cat (lower a) s ->
  blacklist_manager.is_blacklisted cat (PStr a) s = (Ok true, s).
Proof.
  intros (members & Hcat & Hx).
  unfold blacklist_manager.is_blacklisted, bind, get_blacklists, lift, ret.
  rewrite Hcat. simpl. now rewrite bool_decide_eq_true_2.
Qed.

(* ===================================================================== *)
(** ** The hard cut-off pipeline *)
(* ===================================================================== *)

Lemma volume_data_of_dict d :
  volume_data_of (PDict d) =
  Ok (PDict (<["total_volume" := default (PInt 0) (d !! "volume")]>
            (<["1h_volume" := default (PInt 0) (d !! "volume_1h")]>
            (<["24h_volume" := default (PInt 0) (d !! "volume_24h")]>
            (<["volume_liquidity_ratio" :=
                 default (PInt 0) (d !! "volume_liquidity_ratio")]>
            (<["volume_spike_ratio" := default (PInt 1) (d !! "volume_spike")]>
               ∅)))))).
Proof. reflexivity. Qed.

Lemma volume_data_of_inv token vd :
  volume_data_of token = Ok vd -> exists d, token = PDict d.
Proof. destruct token; try discriminate. eauto. Qed.

Lemma volume_data_of_fault token :
  ~ is_dict token -> volume_data_of token = Raise (no_attribute token "get").
Proof. destruct token; simpl; try reflexivity. tauto. Qed.

Section Script.
Import crypto_filter_script.
Variable request : pyval -> result response.

(** The handler of [perform_comprehensive_analysis] always returns, so
    the pipeline does. *)
Lemma perform_comprehensive_analysis_total token :
  never_raises (perform_comprehensive_analysis request token).
Proof.
  apply try_except_total. intros e s. eexists _, _. reflexivity.
Qed.

Lemma pca_reject_run d vd score s s1 :
  volume_data_of (PDict d) = Ok vd ->
  analyze_volume vd s = (Ok score, s1) ->
  suspicious_volume score = true ->
  perform_comprehensive_analysis request (PDict d) s
  = (Ok PNone,
     with_events s1 [Log WARNING "Suspicious volume detected for {}"
                         [default (PStr "Unknown Token") (d !! "symbol")]]).
Proof.
  intros Hvd Hscore Hsus.
  unfold perform_comprehensive_analysis, try_except.
  unfold bind at 1. unfold lift at 1. rewrite Hvd.
  unfold bind at 1. rewrite Hscore, Hsus.
  reflexivity.
Qed.

Lemma pca_pass_run token vd score s s1 :
  volume_data_of token = Ok vd ->
  analyze_volume vd s = (Ok score, s1) ->
  suspicious_volume score = false ->
  exists body handler,
    perform_comprehensive_analysis request token s = try_except body handler s1
    /\ emits (fun ev => ~ volume_rejection ev) body
    /\ (forall e, emits (fun ev => ~ volume_rejection ev) (handler e)).
Proof.
  intros Hvd Hscore Hsus.
  eexists _, _. split; [| split].
  - unfold perform_comprehensive_analysis, try_except.
    unfold bind at 1. unfold lift at 1. rewrite Hvd.
    unfold bind at 1. rewrite Hscore, Hsus.
    reflexivity.
  - apply emits_bind; [auto with emits | intros address].
    apply emits_bind.
    { intros s0. rewrite check_contract_run.
      destruct (request address) as [mock | e];
        [destruct (ContractRisk_getitem _) |];
        eexists; (split; [reflexivity |]); repeat constructor; simpl; tauto. }
    intros ca. destruct (security_concern ca).
    + apply emits_bind; [auto with emits | intros a].
      apply emits_bind;
        [eapply emits_weaken; [| apply emits_add]; intros ev H; apply H |].
      intros _. apply emits_bind; [auto with emits | intros dev].
      apply emits_bind;
        [eapply emits_weaken; [| apply emits_add]; intros ev H; apply H |].
      intros _. apply emits_bind; [auto with emits | intros sym].
      apply emits_bind; [| intros _; auto with emits].
      apply emits_log. simpl. discriminate.
    + apply emits_bind; auto with emits.
  - intros e. apply emits_bind; [| intros _; auto with emits].
    apply emits_log. simpl. tauto.
Qed.

End Script.

(* ===================================================================== *)
(** ** The backend registry and the advisory pipeline *)
(* ===================================================================== *)

Lemma calls_of_app evs1 evs2 :
  calls_of (evs1 ++ evs2) = (calls_of evs1 ++ calls_of evs2)%list.
Proof.
  induction evs1 as [| [lv fmt args | callee arg] rest IH]; simpl;
    [reflexivity | exact IH | now rewrite IH].
Qed.

Section Package.
Variable apis : list (string * api_integrations.client).

(** One pass over the registry: it returns, leaves the store alone and
    emits calls and error records only. *)
Lemma analyze_token_loop_run items a results s :
  exists results' s' evs,
    api_integrations.analyze_token_loop items a results s = (Ok results', s')
    /\ same_store s s'
    /\ emitted s s' evs
    /\ Forall (fun ev => ~ volume_rejection ev) evs.
Proof.
  revert results s.
  induction items as [| [api_name validate_token] rest IH]; intros results s.
  - exists results, s, []. repeat split. constructor.
  - simpl. unfold bind at 1, try_except, bind, emit, lift, ret, log, emit.
    simpl.
    destruct (validate_token a) as [answer | e]; simpl.
    + edestruct IH as (r' & s' & evs & Hrun & Hst & Hev & Hall).
      exists r', s', (evs ++ [Call api_name a])%list.
      split; [exact Hrun |]. split; [| split].
      * destruct Hst as (? & ? & ?). now repeat split.
      * unfold emitted in *. rewrite Hev. simpl. now rewrite <- app_assoc.
      * apply Forall_app. split; [assumption |]. repeat constructor. simpl. tauto.
    + edestruct IH as (r' & s' & evs & Hrun & Hst & Hev & Hall).
      exists r', s',
        (evs ++ [Log ERROR "Error analyzing token with {}: {}"
                     [PStr api_name; PStr (exn_str e)];
                 Call api_name a])%list.
      split; [exact Hrun |]. split; [| split].
      * destruct Hst as (? & ? & ?). now repeat split.
      * unfold emitted in *. rewrite Hev. simpl. now rewrite <- app_assoc.
      * apply Forall_app. split; [assumption |].
        repeat constructor; simpl; tauto.
Qed.

(** [APIManager.analyze_token] returns a dictionary, and the record of
    its invocation stays in the trace. *)
Lemma api_analyze_token_run a s :
  exists results s' evs,
    api_integrations.analyze_token apis a s = (Ok (PDict results), s')
    /\ same_store s s'
    /\ trace s' = (evs ++ Call "APIManager.analyze_token" a :: trace s)%list
    /\ Forall (fun ev => ~ volume_rejection ev) evs.
Proof.
  unfold api_integrations.analyze_token.
  unfold bind at 1. unfold emit at 1.
  edestruct (analyze_token_loop_run apis a)
    as (r' & s' & evs & Hrun & Hst & Hev & Hall).
  exists r', s', evs. unfold bind. rewrite Hrun.
  split; [reflexivity |]. split; [| split; [exact Hev | exact Hall]].
  destruct Hst as (? & ? & ?). now repeat split.
Qed.

(** One pass over the registry calls every backend once with the address,
    in the order of the registry, whether a backend answers or raises. *)
Lemma analyze_token_loop_calls items a results s :
  exists results' s' evs,
    api_integrations.analyze_token_loop items a results s = (Ok results', s')
    /\ emitted s s' evs
    /\ calls_of evs = rev (backend_calls items a).
Proof.
  revert results s.
  induction items as [| [api_name validate_token] rest IH]; intros results s.
  - exists results, s, []. repeat split.
  - simpl. unfold bind at 1, try_except, bind, emit, lift, ret, log, emit.
    simpl.
    destruct (validate_token a) as [answer | e]; simpl.
    + edestruct IH as (r' & s' & evs & Hrun & Hev & Hcalls).
      exists r', s', (evs ++ [Call api_name a])%list.
      split; [exact Hrun |]. split.
      * unfold emitted in *. rewrite Hev. simpl. now rewrite <- app_assoc.
      * rewrite calls_of_app, Hcalls. reflexivity.
    + edestruct IH as (r' & s' & evs & Hrun & Hev & Hcalls).
      exists r', s',
        (evs ++ [Log ERROR "Error analyzing token with {}: {}"
                     [PStr api_name; PStr (exn_str e)];
                 Call api_name a])%list.
      split; [exact Hrun |]. split.
      * unfold emitted in *. rewrite Hev. simpl. now rewrite <- app_assoc.
      * rewrite calls_of_app, Hcalls. reflexivity.
Qed.

(** [APIManager.analyze_token] records its own invocation, then one call
    per registered backend. *)
Lemma api_analyze_token_calls a s :
  exists results s' evs,
    api_integrations.analyze_token apis a s = (Ok (PDict results), s')
    /\ emitted s s' (evs ++ [Call "APIManager.analyze_token" a])
    /\ calls_of evs = rev (backend_calls apis a).
Proof.
  unfold api_integrations.analyze_token.
  unfold bind at 1. unfold emit at 1.
  edestruct (analyze_token_loop_calls apis a)
    as (r' & s' & evs & Hrun & Hev & Hcalls).
  exists r', s', evs. unfold bind. rewrite Hrun.
  split; [reflexivity |]. split; [| exact Hcalls].
  unfold emitted in *. simpl. rewrite Hev. simpl. now rewrite <- app_assoc.
Qed.

(** A record without an address is rejected through the handler. *)
Lemma analyze_token_no_address d s :
  d !! "address" = None ->
  crypto_security.analyze_token apis (PDict d) s
  = (Ok PNone,
     with_events s [Log ERROR "Error analyzing token {}: {}"
                        [PStr "N/A"; PStr "'address'"]]).
Proof.
  intros H. unfold crypto_security.analyze_token, try_except.
  unfold bind at 1. unfold lift at 1. unfold py_getitem. rewrite H.
  unfold bind, lift, py_get. rewrite H. reflexivity.
Qed.

(** A value that is not a dictionary makes the handler itself fail: the
    exception leaves [analyze_token]. *)
Lemma analyze_token_not_dict token s :
  ~ is_dict token ->
  crypto_security.analyze_token apis token s
  = (Raise (no_attribute token "get"), s).
Proof.
  intros H. destruct token; simpl in H; try tauto; reflexivity.
Qed.

Lemma analyze_token_reject_run d a results vd score s s1 s2 :
  d !! "address" = Some a ->
  api_integrations.analyze_token apis a s = (Ok results, s1) ->
  volume_data_of (PDict d) = Ok vd ->
  volume_analyzer.analyze_volume vd s1 = (Ok score, s2) ->
  suspicious_volume score = true ->
  crypto_security.analyze_token apis (PDict d) s
  = (Ok PNone,
     with_events s2 [Log WARNING "Suspicious volume detected for {}"
                         [default (PStr "Unknown Token") (d !! "symbol")]]).
Proof.
  intros Ha Hapi Hvd Hscore Hsus.
  unfold crypto_security.analyze_token, try_except.
  unfold bind at 1. unfold lift at 1. unfold py_getitem. rewrite Ha.
  unfold bind at 1. rewrite Hapi.
  unfold bind at 1. unfold lift at 1. rewrite Hvd.
  unfold bind at 1. rewrite Hscore, Hsus. reflexivity.
Qed.

Lemma analyze_token_accept_run d a results vd score s s1 s2 :
  d !! "address" = Some a ->
  api_integrations.analyze_token apis a s = (Ok results, s1) ->
  volume_data_of (PDict d) = Ok vd ->
  volume_analyzer.analyze_volume vd s1 = (Ok score, s2) ->
  suspicious_volume score = false ->
  crypto_security.analyze_token apis (PDict d) s
  = (Ok (PDict
           (<["risk_level" :=
                PStr (ContractRisk_name
                        (crypto_security._calculate_risk_level results score))]>
           (<["volume_score" := of_num score]>
           (<["api_analysis" := results]> d)))),
     s2).
Proof.
  intros Ha Hapi Hvd Hscore Hsus.
  unfold crypto_security.analyze_token, try_except.
  unfold bind at 1. unfold lift at 1. unfold py_getitem. rewrite Ha.
  unfold bind at 1. rewrite Hapi.
  unfold bind at 1. unfold lift at 1. rewrite Hvd.
  unfold bind at 1. rewrite Hscore, Hsus. reflexivity.
Qed.

(** The three ways [analyze_token] ends on a dictionary. *)
Lemma analyze_token_dict_cases d s :
  (d !! "address" = None
   /\ exists s', crypto_security.analyze_token apis (PDict d) s = (Ok PNone, s')
                 /\ same_store s s')
  \/ exists a results vd score s1 s2,
       d !! "address" = Some a
       /\ api_integrations.analyze_token apis a s = (Ok (PDict results), s1)
       /\ volume_data_of (PDict d) = Ok vd
       /\ volume_analyzer.analyze_volume vd s1 = (Ok score, s2)
       /\ same_store s s2.
Proof.
  destruct (d !! "address") as [a |] eqn:Ha.
  - right.
    destruct (api_analyze_token_run a s) as (results & s1 & evs & Hapi & Hst1 & _).
    destruct (volume_data_of (PDict d)) as [vd | e] eqn:Hvd;
      [| rewrite volume_data_of_dict in Hvd; discriminate].
    destruct (package_scorer_contract vd s1) as (score & s2 & Hscore & Hst2 & _).
    exists a, results, vd, score, s1, s2.
    repeat (split; [eassumption || reflexivity |]).
    eapply same_store_trans; eassumption.
  - left. split; [reflexivity |]. eexists.
    split; [now apply analyze_token_no_address |]. now unfold same_store.
Qed.

Lemma analyze_token_dict_total d :
  never_raises (crypto_security.analyze_token apis (PDict d)).
Proof.
  intros s.
  destruct (analyze_token_dict_cases d s)
    as [(_ & s' & Hrun & _)
       | (a & results & vd & score & s1 & s2 & Ha & Hapi & Hvd & Hscore & _)].
  - eauto.
  - destruct (suspicious_volume score) eqn:Hsus.
    + rewrite (analyze_token_reject_run _ _ _ _ _ _ _ _ Ha Hapi Hvd Hscore Hsus).
      eauto.
    + rewrite (analyze_token_accept_run _ _ _ _ _ _ _ _ Ha Hapi Hvd Hscore Hsus).
      eauto.
Qed.

End Package.

(* ===================================================================== *)
(** ** Events of a run *)
(* ===================================================================== *)

Lemma emits_run {A} (P : event -> Prop) (m : M A) s r s' :
  emits P m -> m s = (r, s') ->
  exists evs, emitted s s' evs /\ Forall P evs.
Proof. intros Hm Hrun. specialize (Hm s). now rewrite Hrun in Hm. Qed.

Lemma emitted_unique s s' evs evs' :
  emitted s s' evs -> emitted s s' evs' -> evs = evs'.
Proof.
  unfold emitted. intros H1 H2. rewrite H1 in H2.
  now apply app_inv_tail in H2.
Qed.

Lemma emitted_trans s1 s2 s3 evs1 evs2 :
  emitted s1 s2 evs1 -> emitted s2 s3 evs2 ->
  emitted s1 s3 (evs2 ++ evs1)%list.
Proof. unfold emitted. intros H1 H2. rewrite H2, H1. now rewrite app_assoc. Qed.

Lemma emitted_with_events s evs : emitted s (with_events s evs) evs.
Proof. reflexivity. Qed.

Lemma emits_script_volume vd :
  emits housekeeping (crypto_filter_script.analyze_volume vd).
Proof.
  unfold crypto_filter_script.analyze_volume. repeat emits_step.
Qed.

Lemma emits_package_volume vd :
  emits housekeeping (volume_analyzer.analyze_volume vd).
Proof.
  unfold volume_analyzer.analyze_volume. repeat emits_step.
Qed.

Lemma housekeeping_no_rejection ev : housekeeping ev -> ~ volume_rejection ev.
Proof. now intros [_ H]. Qed.

Lemma housekeeping_no_call ev : housekeeping ev -> ~ is_call ev.
Proof. now intros [H _]. Qed.

Section ScriptPaths.
Import crypto_filter_script.
Variable request : pyval -> result response.

(** A token that passed the volume gate and has an address reaches the
    classifier; what follows emits housekeeping records only.  When the
    analysis raises no concern the token is returned enriched. *)
Lemma pca_classified_run token vd score a ca s s1 s2 :
  volume_data_of token = Ok vd ->
  analyze_volume vd s = (Ok score, s1) ->
  suspicious_volume score = false ->
  py_getitem token "address" = Ok a ->
  check_contract request a s1 = (Ok ca, s2) ->
  exists rest handler,
    perform_comprehensive_analysis request token s = try_except rest handler s2
    /\ emits housekeeping rest
    /\ (forall e, emits housekeeping (handler e))
    /\ (forall e, returns_only (fun v => v = PNone) (handler e))
    /\ (security_concern ca = true ->
        returns_only (fun v => v = PNone) rest)
    /\ (security_concern ca = false ->
        forall d, token = PDict d ->
          rest s2 = (Ok (PDict
                     (<["contract_risk_level" :=
                          PStr (ContractRisk_name (risk_level ca))]>
                     (<["volume_legitimacy_score" := of_num score]> d))), s2)).
Proof.
  intros Hvd Hscore Hsus Ha Hca.
  eexists _, _. split; [| split; [| split; [| split; [| split]]]].
  - unfold perform_comprehensive_analysis, try_except.
    unfold bind at 1. unfold lift at 1. rewrite Hvd.
    unfold bind at 1. rewrite Hscore, Hsus.
    unfold bind at 1. unfold lift at 1. rewrite Ha.
    unfold bind at 1. rewrite Hca.
    reflexivity.
  - destruct (security_concern ca).
    + apply emits_bind; [auto with emits | intros a'].
      apply emits_bind; [apply emits_add | intros _].
      apply emits_bind; [auto with emits | intros dev].
      apply emits_bind; [apply emits_add | intros _].
      apply emits_bind; [auto with emits | intros sym].
      apply emits_bind; [| intros _; auto with emits].
      apply emits_log. split; simpl; [tauto | discriminate].
    + apply emits_bind; auto with emits.
  - intros e. apply emits_bind; [| intros _; auto with emits].
    apply emits_log. split; simpl; tauto.
  - intros e s0 v s0' H. unfold bind, log, emit, ret in H. now inversion H.
  - intros Hc. rewrite Hc. intros s0 v s0' H.
    unfold bind in H.
    repeat match type of H with
    | (match ?m ?st with _ => _ end) = _ =>
        destruct (m st) as [[? | ?] ?]; try discriminate
    end.
    unfold ret in H. now inversion H.
  - intros Hc d ->. rewrite Hc. reflexivity.
Qed.

(** The same token without an address is rejected through the handler. *)
Lemma pca_no_address_run d vd score s s1 :
  volume_data_of (PDict d) = Ok vd ->
  analyze_volume vd s = (Ok score, s1) ->
  suspicious_volume score = false ->
  d !! "address" = None ->
  perform_comprehensive_analysis request (PDict d) s
  = (Ok PNone,
     with_events s1 [Log ERROR "Comprehensive analysis error: {}"
                         [PStr "'address'"]]).
Proof.
  intros Hvd Hscore Hsus Ha.
  unfold perform_comprehensive_analysis, try_except.
  unfold bind at 1. unfold lift at 1. rewrite Hvd.
  unfold bind at 1. rewrite Hscore, Hsus.
  unfold bind at 1. unfold lift at 1. unfold py_getitem. rewrite Ha.
  reflexivity.
Qed.

(** A value that is not a dictionary is rejected through the handler. *)
Lemma pca_not_dict_run token s :
  ~ is_dict token ->
  perform_comprehensive_analysis request token s
  = (Ok PNone,
     with_events s [Log ERROR "Comprehensive analysis error: {}"
                        [PStr (exn_str (no_attribute token "get"))]]).
Proof.
  intros H. unfold perform_comprehensive_analysis, try_except.
  unfold bind at 1. unfold lift at 1.
  rewrite (volume_data_of_fault _ H). reflexivity.
Qed.

End ScriptPaths.

(* ===================================================================== *)
(** ** The pipeline on the volume-rejection path *)
(* ===================================================================== *)

(** C10.  A token whose volume score is below 0.5 makes
    [perform_comprehensive_analysis] return [None] with the blacklist
    untouched: the four category sets and the blacklist file are the same
    before and after the call. *)
Theorem volume_reject_leaves_blacklist
    (request : pyval -> result crypto_filter_script.response)
    (token vd : pyval) (score : pynum) (s s1 : state) :
  volume_data_of token = Ok vd ->
  crypto_filter_script.analyze_volume vd s = (Ok score, s1) ->
  suspicious_volume score = true ->
  exists s',
    crypto_filter_script.perform_comprehensive_analysis request token s
    = (Ok PNone, s')
    /\ blacklists s' = blacklists s
    /\ blacklist_file s' = blacklist_file s.
Proof.
  intros Hvd Hscore Hsus.
  destruct (volume_data_of_inv _ _ Hvd) as [d ->].
  rewrite (pca_reject_run request d vd score s s1 Hvd Hscore Hsus).
  eexists. split; [reflexivity |].
  destruct (script_scorer_contract vd s) as (score' & s1' & Hrun & Hst & _).
  rewrite Hscore in Hrun. injection Hrun as <- <-.
  destruct Hst as (Hbl & Hfile & _). now split.
Qed.

Lemma volume_reject_leaves_blacklist_witness :
  exists s',
    crypto_filter_script.perform_comprehensive_analysis
      crypto_filter_script.simulated_request low_volume_token fresh_state
    = (Ok PNone, s')
    /\ blacklists s' = blacklists fresh_state
    /\ blacklist_file s' = blacklist_file fresh_state.
Proof.
  eapply (volume_reject_leaves_blacklist
            crypto_filter_script.simulated_request low_volume_token _ _
            fresh_state _);
    [reflexivity | vm_compute; reflexivity | vm_compute; reflexivity].
Defined.

(* ===================================================================== *)
(** ** Rejection for a security concern *)
(* ===================================================================== *)

Lemma security_concern_iff ca :
  crypto_filter_script.security_concern ca = true
  <-> is_bundled ca = true \/ risk_level ca = HIGH_RISK \/ risk_level ca = DANGEROUS.
Proof.
  unfold crypto_filter_script.security_concern.
  destruct (is_bundled ca); simpl; [tauto |].
  destruct (risk_level ca); simpl; split; intros H; try discriminate;
    try tauto; try reflexivity;
    destruct H as [H | [H | H]]; discriminate.
Qed.

(** C1, as the code has it.  A token that passes the volume check, whose
    address is a non-empty string and whose contract analysis is bundled,
    HIGH_RISK or DANGEROUS is rejected, and afterwards its lowercased
    address is in the 'tokens' blacklist: [is_blacklisted('tokens',
    address)] answers true.  (An empty address is never stored:
    [add_to_blacklist] returns before touching the set.) *)
Theorem security_concern_blacklists_token
    (request : pyval -> result crypto_filter_script.response)
    (d : gmap string pyval) (address : string) (vd : pyval) (score : pynum)
    (ca : ContractAnalysis) (s s1 s2 : state) :
  is_Some (blacklists s !! "tokens") ->
  d !! "address" = Some (PStr address) ->
  address <> "" ->
  volume_data_of (PDict d) = Ok vd ->
  crypto_filter_script.analyze_volume vd s = (Ok score, s1) ->
  suspicious_volume score = false ->
  crypto_filter_script.check_contract request (PStr address) s1 = (Ok ca, s2) ->
  is_bundled ca = true \/ risk_level ca = HIGH_RISK \/ risk_level ca = DANGEROUS ->
  exists s',
    crypto_filter_script.perform_comprehensive_analysis request (PDict d) s
    = (Ok PNone, s')
    /\ stored "tokens" (lower address) s'
    /\ blacklist_manager.is_blacklisted "tokens" (PStr address) s' = (Ok true, s').
Proof.
  intros [members Hm] Ha Hne Hvd Hscore Hsus Hca Hrisk.
  apply security_concern_iff in Hrisk.
  assert (Hbl2 : blacklists s2 = blacklists s).
  { destruct (script_scorer_contract vd s) as (? & ? & Hrun & (Hb1 & _) & _).
    rewrite Hscore in Hrun. injection Hrun as <- <-.
    destruct (check_contract_store _ _ _ _ _ Hca) as (Hb2 & _). congruence. }
  assert (Hstored : exists s',
    crypto_filter_script.perform_comprehensive_analysis request (PDict d) s
    = (Ok PNone, s') /\ stored "tokens" (lower address) s').
  { unfold crypto_filter_script.perform_comprehensive_analysis, try_except.
    unfold bind at 1. unfold lift at 1. rewrite Hvd.
    unfold bind at 1. rewrite Hscore, Hsus.
    unfold bind at 1. unfold lift at 1. unfold py_getitem at 1. rewrite Ha.
    unfold bind at 1. rewrite Hca, Hrisk.
    unfold bind at 1. unfold lift at 1. unfold py_getitem at 1. rewrite Ha.
    destruct (add_run_str "tokens" address members s2 Hne)
      as (s3 & Hadd & Hbl3); [now rewrite Hbl2 |].
    unfold bind at 1. rewrite Hadd.
    assert (H3 : stored "tokens" (lower address) s3).
    { exists ({[lower address]} ∪ members). rewrite Hbl3, lookup_insert_eq.
      split; [reflexivity | set_solver]. }
    unfold bind at 1. unfold lift at 1. unfold py_get at 1.
    pose proof (stored_add "tokens" (lower address) "developers"
                  (default (PStr "") (d !! "developer_address")) s3 H3) as H4.
    unfold bind at 1.
    destruct (blacklist_manager.add_to_blacklist "developers" _ s3)
      as [[[] | e] s4]; simpl in H4.
    - eexists. split; [reflexivity |].
      destruct H4 as (ms & ? & ?). now exists ms.
    - eexists. split; [reflexivity |].
      destruct H4 as (ms & ? & ?). now exists ms. }
  destruct Hstored as (s' & Hrun & Hst).
  exists s'. split; [exact Hrun |]. split; [exact Hst |].
  now apply is_blacklisted_stored.
Qed.

Lemma security_concern_blacklists_token_witness :
  exists s',
    crypto_filter_script.perform_comprehensive_analysis high_risk_stub
      (sample_token "0xAAA") fresh_state
    = (Ok PNone, s')
    /\ stored "tokens" "0xaaa" s'
    /\ blacklist_manager.is_blacklisted "tokens" (PStr "0xAAA") s' = (Ok true, s').
Proof.
  eapply (security_concern_blacklists_token high_risk_stub _ "0xAAA" _ _ _
            fresh_state _ _);
    [ eexists; vm_compute; reflexivity
    | vm_compute; reflexivity
    | discriminate
    | reflexivity
    | vm_compute; reflexivity
    | vm_compute; reflexivity
    | vm_compute; reflexivity
    | right; left; vm_compute; reflexivity ].
Defined.

(** With an empty address the token is rejected on the same path, yet the
    membership test answers false afterwards. *)
Lemma empty_address_not_blacklisted :
  fst (crypto_filter_script.analyze_volume
         (PDict (<["total_volume" := PInt 5000]> (<["1h_volume" := PInt 500]>
                (<["24h_volume" := PInt 10000]>
                (<["volume_liquidity_ratio" := PInt 0]>
                (<["volume_spike_ratio" := PInt 1]> ∅))))))
         fresh_state)
  = Ok (float_lit (8 # 10))
  /\ volume_data_of empty_address_token
     = Ok (PDict (<["total_volume" := PInt 5000]> (<["1h_volume" := PInt 500]>
                 (<["24h_volume" := PInt 10000]>
                 (<["volume_liquidity_ratio" := PInt 0]>
                 (<["volume_spike_ratio" := PInt 1]> ∅))))))
  /\ suspicious_volume (float_lit (8 # 10)) = false
  /\ fst (crypto_filter_script.check_contract high_risk_stub (PStr "") fresh_state)
     = Ok (mkContractAnalysis (PStr "") HIGH_RISK false false false float_0_0 [])
  /\ fst (crypto_filter_script.perform_comprehensive_analysis high_risk_stub
            empty_address_token fresh_state)
     = Ok PNone
  /\ fst (blacklist_manager.is_blacklisted "tokens" (PStr "")
            (snd (crypto_filter_script.perform_comprehensive_analysis
                    high_risk_stub empty_address_token fresh_state)))
     = Ok false.
Proof. repeat split; vm_compute; reflexivity. Qed.

(* ===================================================================== *)
(** ** The volume gate *)
(* ===================================================================== *)

Lemma suspicious_volume_lt score q :
  num_val score = FFin q ->
  suspicious_volume score = true <-> (q < 1 # 2)%Q.
Proof.
  intros Hq. unfold suspicious_volume, num_lt. rewrite Hq.
  change (num_val (NFloat float_0_5)) with (FFin (1 # 2)).
  unfold float_lt, Qltb. rewrite Qlt_alt.
  destruct (q ?= 1 # 2)%Q; split; intros H; congruence.
Qed.

Lemma check_contract_called request a s :
  exists ca s' evs,
    crypto_filter_script.check_contract request a s = (Ok ca, s')
    /\ emitted s s' evs
    /\ In (Call "RugCheckAPI.check_contract" a) evs
    /\ Forall (fun ev => ~ volume_rejection ev) evs.
Proof.
  rewrite check_contract_run.
  destruct (request a) as [mock | e];
    [destruct (ContractRisk_getitem _) |];
    eexists _, _, _; (split; [reflexivity |]);
    (split; [apply emitted_with_events |]);
    (split; [simpl; tauto | repeat constructor; simpl; tauto]).
Qed.

Lemma no_rejection_among evs :
  Forall (fun ev => ~ volume_rejection ev) evs ->
  Exists volume_rejection evs -> False.
Proof.
  intros Hall Hex. apply Exists_exists in Hex as (ev & Hin & Hev).
  rewrite Forall_forall in Hall. exact (Hall ev Hin Hev).
Qed.

Lemma script_gate request d vd score s s1 :
  volume_data_of (PDict d) = Ok vd ->
  crypto_filter_script.analyze_volume vd s = (Ok score, s1) ->
  (suspicious_volume score = true
   <-> rejected_for_volume s
         (crypto_filter_script.perform_comprehensive_analysis request (PDict d) s))
  /\ (suspicious_volume score = false ->
      forall a, d !! "address" = Some a ->
        exists evs,
          emitted s
            (snd (crypto_filter_script.perform_comprehensive_analysis
                    request (PDict d) s)) evs
          /\ In (Call "RugCheckAPI.check_contract" a) evs).
Proof.
  intros Hvd Hscore.
  destruct (emits_run _ _ _ _ _ (emits_script_volume vd) Hscore)
    as (evs1 & Hev1 & Hall1).
  split; [split |].
  - intros Hsus. rewrite (pca_reject_run request d vd score s s1 Hvd Hscore Hsus).
    split; [reflexivity |]. eexists. split.
    + simpl. eapply emitted_trans; [exact Hev1 | apply emitted_with_events].
    + simpl. constructor. reflexivity.
  - intros (_ & evs & Hev & Hex).
    destruct (suspicious_volume score) eqn:Hsus; [reflexivity | exfalso].
    destruct (pca_pass_run request (PDict d) vd score s s1 Hvd Hscore Hsus)
      as (body & handler & Hrun & Hbody & Hhandler).
    rewrite Hrun in Hev.
    destruct (emits_try _ _ _ Hbody Hhandler s1) as (evs2 & Hev2 & Hall2).
    pose proof (emitted_trans _ _ _ _ _ Hev1 Hev2) as Hev'.
    rewrite (emitted_unique _ _ _ _ Hev Hev') in Hex.
    apply (no_rejection_among (evs2 ++ evs1)%list); [| exact Hex].
    apply Forall_app. split; [exact Hall2 |].
    eapply Forall_impl; [exact Hall1 | apply housekeeping_no_rejection].
  - intros Hsus a Ha.
    destruct (check_contract_called request a s1)
      as (ca & s2 & evs2 & Hca & Hev2 & Hin & _).
    destruct (pca_classified_run request (PDict d) vd score a ca s s1 s2
                Hvd Hscore Hsus)
      as (rest & handler & Hrun & Hrest & Hhandler & _);
      [unfold py_getitem; now rewrite Ha | exact Hca |].
    rewrite Hrun.
    destruct (emits_try _ _ _ Hrest Hhandler s2) as (evs3 & Hev3 & _).
    exists (evs3 ++ evs2 ++ evs1)%list. split.
    + eapply emitted_trans; [| exact Hev3].
      eapply emitted_trans; eassumption.
    + apply in_or_app. right. apply in_or_app. now left.
Qed.

Lemma package_gate apis d a vd score results s s1 s2 :
  d !! "address" = Some a ->
  api_integrations.analyze_token apis a s = (Ok results, s1) ->
  volume_data_of (PDict d) = Ok vd ->
  volume_analyzer.analyze_volume vd s1 = (Ok score, s2) ->
  (suspicious_volume score = true
   <-> rejected_for_volume s (crypto_security.analyze_token apis (PDict d) s))
  /\ (suspicious_volume score = true ->
      exists evs,
        emitted s (snd (crypto_security.analyze_token apis (PDict d) s)) evs
        /\ In (Call "APIManager.analyze_token" a) evs).
Proof.
  intros Ha Hapi Hvd Hscore.
  destruct (api_analyze_token_run apis a s)
    as (results' & s1' & evs1 & Hrun & _ & Htr & _).
  rewrite Hapi in Hrun. injection Hrun as -> <-.
  destruct (emits_run _ _ _ _ _ (emits_package_volume vd) Hscore)
    as (evs2 & Hev2 & _).
  assert (Hev : suspicious_volume score = true ->
    emitted s (snd (crypto_security.analyze_token apis (PDict d) s))
      (Log WARNING "Suspicious volume detected for {}"
           [default (PStr "Unknown Token") (d !! "symbol")]
       :: evs2 ++ evs1 ++ [Call "APIManager.analyze_token" a])%list).
  { intros Hsus.
    rewrite (analyze_token_reject_run apis d a _ vd score s s1 s2
               Ha Hapi Hvd Hscore Hsus).
    unfold emitted in *. simpl. rewrite Hev2, Htr.
    now rewrite <- !app_assoc. }
  split; [split |].
  - intros Hsus. split.
    + now rewrite (analyze_token_reject_run apis d a _ vd score s s1 s2
                     Ha Hapi Hvd Hscore Hsus).
    + eexists. split; [exact (Hev Hsus) |]. constructor. reflexivity.
  - intros (Hnone & _).
    destruct (suspicious_volume score) eqn:Hsus; [reflexivity | exfalso].
    rewrite (analyze_token_accept_run apis d a _ vd score s s1 s2
               Ha Hapi Hvd Hscore Hsus) in Hnone.
    discriminate.
  - intros Hsus. eexists. split; [exact (Hev Hsus) |].
    right. apply in_or_app. right. apply in_or_app. right. now left.
Qed.

(** C2.  The gate is [volume_score < 0.5]: a score is suspicious exactly
    when its value is below one half, so 0.4 is rejected, 0.6 passes and
    0.5 itself would pass.  In both pipelines a token (a record, with an
    address for the advisory pipeline, which reads it first) is rejected
    with the suspicious-volume warning exactly when its score is
    suspicious; otherwise the hard cut-off pipeline goes on to the
    classifier. *)
Theorem volume_gate_threshold :
  (forall score q, num_val score = FFin q ->
     suspicious_volume score = true <-> (q < 1 # 2)%Q)
  /\ suspicious_volume (float_lit (4 # 10)) = true
  /\ suspicious_volume (float_lit (6 # 10)) = false
  /\ suspicious_volume (float_lit (5 # 10)) = false
  /\ (forall request d vd score s s1,
        volume_data_of (PDict d) = Ok vd ->
        crypto_filter_script.analyze_volume vd s = (Ok score, s1) ->
        (suspicious_volume score = true
         <-> rejected_for_volume s
               (crypto_filter_script.perform_comprehensive_analysis
                  request (PDict d) s))
        /\ (suspicious_volume score = false ->
            forall a, d !! "address" = Some a ->
              exists evs,
                emitted s
                  (snd (crypto_filter_script.perform_comprehensive_analysis
                          request (PDict d) s)) evs
                /\ In (Call "RugCheckAPI.check_contract" a) evs))
  /\ (forall apis d a vd score results s s1 s2,
        d !! "address" = Some a ->
        api_integrations.analyze_token apis a s = (Ok results, s1) ->
        volume_data_of (PDict d) = Ok vd ->
        volume_analyzer.analyze_volume vd s1 = (Ok score, s2) ->
        suspicious_volume score = true
        <-> rejected_for_volume s
              (crypto_security.analyze_token apis (PDict d) s)).
Proof.
  split; [exact suspicious_volume_lt |].
  split; [reflexivity |]. split; [reflexivity |]. split; [reflexivity |].
  split.
  - intros request d vd score s s1 Hvd Hscore.
    exact (script_gate request d vd score s s1 Hvd Hscore).
  - intros apis d a vd score results s s1 s2 Ha Hapi Hvd Hscore.
    exact (proj1 (package_gate apis d a vd score results s s1 s2
                    Ha Hapi Hvd Hscore)).
Qed.

(** The low-volume token of the tests is rejected for its volume, by both
    pipelines. *)
Lemma volume_gate_threshold_witness :
  rejected_for_volume fresh_state
    (crypto_filter_script.perform_comprehensive_analysis
       crypto_filter_script.simulated_request low_volume_token fresh_state)
  /\ rejected_for_volume fresh_state
       (crypto_security.analyze_token [stub_backend] low_volume_token
          fresh_state).
Proof.
  split.
  - pose proof (proj1 (proj2 (proj2 (proj2 (proj2 volume_gate_threshold))))
                  crypto_filter_script.simulated_request low_volume_record)
      as Hgate.
    eapply Hgate;
      [reflexivity | vm_compute; reflexivity | vm_compute; reflexivity].
  - pose proof (proj2 (proj2 (proj2 (proj2 (proj2 volume_gate_threshold))))
                  [stub_backend] low_volume_record)
      as Hgate.
    eapply Hgate;
      [ vm_compute; reflexivity
      | vm_compute; reflexivity
      | reflexivity
      | vm_compute; reflexivity
      | vm_compute; reflexivity ].
Defined.

(** The sample token of [main()] scores 0.8 and is not. *)
Example sample_token_passes_gate :
  ~ rejected_for_volume fresh_state
      (crypto_filter_script.perform_comprehensive_analysis
         crypto_filter_script.simulated_request (sample_token "0xAAA")
         fresh_state).
Proof. intros [H _]. vm_compute in H. discriminate. Qed.

(* ===================================================================== *)
(** ** When the classifier is invoked *)
(* ===================================================================== *)

(** C5, as the code has it.  A token whose volume score is below 0.5 gets
    no output from either pipeline.  [perform_comprehensive_analysis]
    scores the volume first and, on that path, emits no call into the
    classifier.  [analyze_token] queries the API manager with the token's
    address before it scores the volume: the manager's call is followed
    by exactly one call per registered backend, each with the token's
    address and in the order of the registry; the scoring starts from the
    state these calls leave and makes no call itself; the rejection
    warning comes last.  (Traces are most recent first.) *)
Theorem volume_reject_classifier_calls :
  (forall request token vd score s s1,
     volume_data_of token = Ok vd ->
     crypto_filter_script.analyze_volume vd s = (Ok score, s1) ->
     suspicious_volume score = true ->
     exists s' evs,
       crypto_filter_script.perform_comprehensive_analysis request token s
       = (Ok PNone, s')
       /\ emitted s s' evs
       /\ Forall (fun ev => ~ is_call ev) evs)
  /\ (forall apis d a vd score results s s1 s2,
        d !! "address" = Some a ->
        api_integrations.analyze_token apis a s = (Ok results, s1) ->
        volume_data_of (PDict d) = Ok vd ->
        volume_analyzer.analyze_volume vd s1 = (Ok score, s2) ->
        suspicious_volume score = true ->
        exists s' evs_api evs_volume,
          crypto_security.analyze_token apis (PDict d) s = (Ok PNone, s')
          /\ emitted s s1 (evs_api ++ [Call "APIManager.analyze_token" a])
          /\ calls_of evs_api = rev (backend_calls apis a)
          /\ emitted s1 s2 evs_volume
          /\ Forall (fun ev => ~ is_call ev) evs_volume
          /\ emitted s2 s'
               [Log WARNING "Suspicious volume detected for {}"
                    [default (PStr "Unknown Token") (d !! "symbol")]]
          /\ emitted s s'
               (Log WARNING "Suspicious volume detected for {}"
                    [default (PStr "Unknown Token") (d !! "symbol")]
                :: evs_volume ++ evs_api
                   ++ [Call "APIManager.analyze_token" a])).
Proof.
  split.
  - intros request token vd score s s1 Hvd Hscore Hsus.
    destruct (volume_data_of_inv _ _ Hvd) as [d ->].
    rewrite (pca_reject_run request d vd score s s1 Hvd Hscore Hsus).
    destruct (emits_run _ _ _ _ _ (emits_script_volume vd) Hscore)
      as (evs1 & Hev1 & Hall1).
    eexists _, _. split; [reflexivity |]. split.
    + eapply emitted_trans; [exact Hev1 | apply emitted_with_events].
    + apply Forall_app. split.
      * repeat constructor. simpl. tauto.
      * eapply Forall_impl; [exact Hall1 | apply housekeeping_no_call].
  - intros apis d a vd score results s s1 s2 Ha Hapi Hvd Hscore Hsus.
    destruct (api_analyze_token_calls apis a s)
      as (results' & s1' & evs1 & Hrun & Hev1 & Hcalls).
    rewrite Hapi in Hrun. injection Hrun as -> <-.
    destruct (emits_run _ _ _ _ _ (emits_package_volume vd) Hscore)
      as (evs2 & Hev2 & Hall2).
    rewrite (analyze_token_reject_run apis d a _ vd score s s1 s2
               Ha Hapi Hvd Hscore Hsus).
    eexists _, evs1, evs2. split; [reflexivity |].
    split; [exact Hev1 |]. split; [exact Hcalls |].
    split; [exact Hev2 |].
    split; [eapply Forall_impl; [exact Hall2 | apply housekeeping_no_call] |].
    split; [apply emitted_with_events |].
    unfold emitted in *. simpl. rewrite Hev2, Hev1.
    now rewrite <- !app_assoc.
Qed.

(** The low-volume token of the tests with one backend registered: the
    run ends in a rejection, and the backend has been called with the
    token's address by the time the volume is scored. *)
Lemma volume_reject_classifier_calls_witness :
  (exists s' evs,
     crypto_filter_script.perform_comprehensive_analysis
       crypto_filter_script.simulated_request low_volume_token fresh_state
     = (Ok PNone, s')
     /\ emitted fresh_state s' evs
     /\ Forall (fun ev => ~ is_call ev) evs)
  /\ (exists s' evs_api evs_volume,
        crypto_security.analyze_token [stub_backend] low_volume_token fresh_state
        = (Ok PNone, s')
        /\ calls_of evs_api = [Call "stub" (PStr "0x456token_address")]
        /\ Forall (fun ev => ~ is_call ev) evs_volume
        /\ emitted fresh_state s'
             (Log WARNING "Suspicious volume detected for {}" [PStr "BAD"]
              :: evs_volume ++ evs_api
                 ++ [Call "APIManager.analyze_token"
                          (PStr "0x456token_address")])).
Proof.
  split.
  - eapply (proj1 volume_reject_classifier_calls);
      [reflexivity | vm_compute; reflexivity | vm_compute; reflexivity].
  - edestruct (proj2 volume_reject_classifier_calls [stub_backend]
                 low_volume_record)
      as (s' & evs_api & evs_volume & Hrun & _ & Hcalls & _ & Hall & _ & Hev);
      [ vm_compute; reflexivity
      | vm_compute; reflexivity
      | reflexivity
      | vm_compute; reflexivity
      | vm_compute; reflexivity
      | ].
    exists s', evs_api, evs_volume.
    split; [exact Hrun |]. split; [exact Hcalls |]. split; [exact Hall |].
    exact Hev.
Defined.

(** On the low-volume token of the tests (score 0.0) the advisory pipeline
    returns nothing, yet its trace holds the call into the API manager,
    with the empty registry of the source, and the call into the backend
    when one is registered. *)
Lemma advisory_pipeline_queries_first :
  rbind (volume_data_of low_volume_token)
        (fun vd => fst (volume_analyzer.analyze_volume vd fresh_state))
  = Ok (float_lit 0)
  /\ suspicious_volume (float_lit 0) = true
  /\ crypto_security.analyze_token api_integrations._initialize_apis
       low_volume_token fresh_state
     = (Ok PNone,
        with_events fresh_state
          [Log WARNING "Suspicious volume detected for {}" [PStr "BAD"];
           Call "APIManager.analyze_token" (PStr "0x456token_address")])
  /\ crypto_security.analyze_token [stub_backend] low_volume_token fresh_state
     = (Ok PNone,
        with_events fresh_state
          [Log WARNING "Suspicious volume detected for {}" [PStr "BAD"];
           Call "stub" (PStr "0x456token_address");
           Call "APIManager.analyze_token" (PStr "0x456token_address")]).
Proof. repeat split; vm_compute; reflexivity. Qed.

(* ===================================================================== *)
(** ** Malformed records *)
(* ===================================================================== *)

(** C4 at its failing input.  [analyze_token(None)]: the subscript
    [token_data['address']] raises inside the [try]; the handler formats
    its message with [token_data.get('address', 'N/A')], which raises
    AttributeError on [None], and that exception leaves [analyze_token].
    The batch entry point [analyze_tokens] lets it through. *)
Theorem analyze_token_none_escapes
    (apis : list (string * api_integrations.client)) (s : state) :
  crypto_security.analyze_token apis PNone s
  = (Raise (Exn AttributeError "'NoneType' object has no attribute 'get'"), s)
  /\ crypto_security.analyze_tokens apis [PNone] s
     = (Raise (Exn AttributeError "'NoneType' object has no attribute 'get'"), s).
Proof. split; reflexivity. Qed.

(** The sibling paths keep the contract: [perform_comprehensive_analysis]
    returns from every value, [analyze_token] from every dictionary, also
    one without an address. *)
Lemma analyze_one_returns_elsewhere :
  (forall request token,
     never_raises
       (crypto_filter_script.perform_comprehensive_analysis request token))
  /\ (forall apis d, never_raises (crypto_security.analyze_token apis (PDict d)))
  /\ fst (crypto_filter_script.perform_comprehensive_analysis
            crypto_filter_script.simulated_request PNone fresh_state)
     = Ok PNone
  /\ fst (crypto_security.analyze_token api_integrations._initialize_apis
            (PDict ∅) fresh_state)
     = Ok PNone.
Proof.
  split; [exact perform_comprehensive_analysis_total |].
  split; [exact analyze_token_dict_total |].
  split; reflexivity.
Qed.

(* ===================================================================== *)
(** ** The placeholder risk level *)
(* ===================================================================== *)

(** C9.  [_calculate_risk_level] is the constant MEDIUM_RISK, and every
    record [analyze_token] returns carries ['risk_level'] equal to
    ['MEDIUM_RISK'], whatever the backends answered. *)
Theorem calculate_risk_level_constant :
  (forall api_results volume_score,
     crypto_security._calculate_risk_level api_results volume_score
     = MEDIUM_RISK)
  /\ (forall apis token s v s',
        crypto_security.analyze_token apis token s = (Ok v, s') ->
        v <> PNone ->
        exists d', v = PDict d'
                   /\ d' !! "risk_level" = Some (PStr "MEDIUM_RISK")).
Proof.
  split; [reflexivity |].
  intros apis token s v s' Hrun Hv.
  destruct token as [| | | | | | d];
    try (rewrite analyze_token_not_dict in Hrun by (simpl; tauto);
         discriminate).
  destruct (analyze_token_dict_cases apis d s)
    as [(_ & s0 & Hrun0 & _)
       | (a & results & vd & score & s1 & s2 & Ha & Hapi & Hvd & Hscore & _)].
  - rewrite Hrun0 in Hrun. injection Hrun as <- <-. congruence.
  - destruct (suspicious_volume score) eqn:Hsus.
    + rewrite (analyze_token_reject_run apis d a _ vd score s s1 s2
                 Ha Hapi Hvd Hscore Hsus) in Hrun.
      injection Hrun as <- <-. congruence.
    + rewrite (analyze_token_accept_run apis d a _ vd score s s1 s2
                 Ha Hapi Hvd Hscore Hsus) in Hrun.
      injection Hrun as <- <-. eexists. split; [reflexivity |].
      now rewrite lookup_insert_eq.
Qed.

Lemma calculate_risk_level_constant_witness :
  exists d',
    fst (crypto_security.analyze_token [stub_backend] (sample_token "0x123test")
           fresh_state) = Ok (PDict d')
    /\ d' !! "risk_level" = Some (PStr "MEDIUM_RISK").
Proof.
  destruct (crypto_security.analyze_token [stub_backend]
              (sample_token "0x123test") fresh_state) as [r s'] eqn:Hrun.
  assert (Hv : exists v, r = Ok v /\ v <> PNone).
  { vm_compute in Hrun. injection Hrun as <- _. eexists. split; [reflexivity |].
    discriminate. }
  destruct Hv as (v & -> & Hv).
  destruct (proj2 calculate_risk_level_constant _ _ _ _ _ Hrun Hv)
    as (d' & -> & Hd').
  now exists d'.
Defined.

(* ===================================================================== *)
(** ** Batches *)
(* ===================================================================== *)

Lemma returns_only_try {A} (Q : A -> Prop) (m : M A) (h : exn -> M A) :
  returns_only Q m -> (forall e, returns_only Q (h e)) ->
  returns_only Q (try_except m h).
Proof.
  intros Hm Hh s a s' H. unfold try_except in H.
  destruct (m s) as [[a0 | e] s0] eqn:Hrun.
  - injection H as <- <-. exact (Hm _ _ _ Hrun).
  - exact (Hh e _ _ _ H).
Qed.

Lemma enriches_truthy k1 k2 token v :
  enriches k1 k2 token v -> py_truthy v = true /\ is_rejected v = false.
Proof.
  intros (d & d' & _ & -> & [x Hx] & _). simpl. split; [| reflexivity].
  rewrite bool_decide_eq_false_2; [reflexivity |].
  intros ->. now rewrite lookup_empty in Hx.
Qed.

Lemma verdict_truthy k1 k2 token v :
  v = PNone \/ enriches k1 k2 token v ->
  py_truthy v = negb (is_rejected v).
Proof.
  intros [-> | H]; [reflexivity |].
  destruct (enriches_truthy _ _ _ _ H) as [-> ->]. reflexivity.
Qed.

Lemma filter_length_bound {A} (f : A -> bool) (l : list A) :
  (length (List.filter f l) <= length l)%nat.
Proof.
  induction l as [| x l IH]; simpl; [lia |].
  destruct (f x); simpl; lia.
Qed.

Section Loop.
Variable analyze_one : pyval -> M pyval.
Variable loop : list pyval -> list pyval -> M (list pyval).
Variables k1 k2 : string.

Hypothesis loop_nil : forall acc, loop [] acc = ret acc.
Hypothesis loop_cons : forall token rest acc,
  loop (token :: rest) acc =
  bind (analyze_one token)
       (fun v => if py_truthy v then loop rest (acc ++ [v])%list
                 else loop rest acc).

(** The accumulating loop computes the verdicts and keeps, in order,
    those that are not rejections. *)
Lemma loop_keeps_accepted tokens :
  Forall (fun token =>
            never_raises (analyze_one token)
            /\ returns_only (fun v => v = PNone \/ enriches k1 k2 token v)
                 (analyze_one token)) tokens ->
  forall acc s,
    exists vs s',
      verdicts analyze_one tokens s = (Ok vs, s')
      /\ loop tokens acc s
         = (Ok (acc ++ List.filter (fun v => negb (is_rejected v)) vs)%list, s')
      /\ Forall2 (fun token v => v = PNone \/ enriches k1 k2 token v)
           tokens vs.
Proof.
  induction 1 as [| token rest [Htotal Hshape] _ IH]; intros acc s.
  - exists [], s. rewrite loop_nil. simpl. rewrite app_nil_r.
    repeat split. constructor.
  - destruct (Htotal s) as (v & s1 & Hrun).
    pose proof (Hshape _ _ _ Hrun) as Hv.
    rewrite loop_cons. simpl. unfold bind at 1 3. rewrite Hrun.
    rewrite (verdict_truthy _ _ _ _ Hv).
    destruct (is_rejected v) eqn:Hrej; simpl.
    + destruct (IH acc s1) as (vs & s' & Hvs & Hloop & Hall).
      exists (v :: vs), s'. unfold bind, ret. rewrite Hvs, Hloop. simpl.
      rewrite Hrej. simpl. repeat split. now constructor.
    + destruct (IH (acc ++ [v])%list s1) as (vs & s' & Hvs & Hloop & Hall).
      exists (v :: vs), s'. unfold bind, ret. rewrite Hvs, Hloop. simpl.
      rewrite Hrej. simpl. rewrite <- app_assoc. repeat split.
      now constructor.
Qed.
End Loop.

Lemma script_verdict request token :
  returns_only
    (fun v => v = PNone
              \/ enriches "volume_legitimacy_score" "contract_risk_level" token v)
    (crypto_filter_script.perform_comprehensive_analysis request token).
Proof.
  intros s v s' Hrun.
  destruct token as [| | | | | | d];
    try (rewrite pca_not_dict_run in Hrun by (simpl; tauto);
         injection Hrun as <- _; now left).
  destruct (volume_data_of (PDict d)) as [vd | e] eqn:Hvd;
    [| rewrite volume_data_of_dict in Hvd; discriminate].
  destruct (script_scorer_contract vd s) as (score & s1 & Hscore & _).
  destruct (suspicious_volume score) eqn:Hsus.
  { rewrite (pca_reject_run request d vd score s s1 Hvd Hscore Hsus) in Hrun.
    injection Hrun as <- _. now left. }
  destruct (d !! "address") as [a |] eqn:Ha.
  2: { rewrite (pca_no_address_run request d vd score s s1 Hvd Hscore Hsus Ha)
         in Hrun.
       injection Hrun as <- _. now left. }
  destruct (check_contract_called request a s1) as (ca & s2 & _ & Hca & _).
  destruct (pca_classified_run request (PDict d) vd score a ca s s1 s2
              Hvd Hscore Hsus)
    as (rest & handler & Heq & _ & _ & Hhandler & Hconcern & Hclean);
    [unfold py_getitem; now rewrite Ha | exact Hca |].
  rewrite Heq in Hrun.
  destruct (crypto_filter_script.security_concern ca) eqn:Hc.
  - left. revert Hrun. apply (returns_only_try (fun v => v = PNone));
      [now apply Hconcern | exact Hhandler].
  - right. rewrite (try_ok _ _ _ _ _ (Hclean eq_refl d eq_refl)) in Hrun.
    injection Hrun as <- _. exists d. eexists. split; [reflexivity |].
    split; [reflexivity |].
    split; [rewrite lookup_insert_ne by discriminate;
            rewrite lookup_insert_eq; eauto |].
    split; [rewrite lookup_insert_eq; eauto |].
    intros k Hk. rewrite !lookup_insert_ne; [reflexivity | |];
      intros <-; apply Hk; set_solver.
Qed.

Lemma package_verdict apis d :
  returns_only
    (fun v => v = PNone \/ enriches "volume_score" "risk_level" (PDict d) v)
    (crypto_security.analyze_token apis (PDict d)).
Proof.
  intros s v s' Hrun.
  destruct (analyze_token_dict_cases apis d s)
    as [(_ & s0 & Hrun0 & _)
       | (a & results & vd & score & s1 & s2 & Ha & Hapi & Hvd & Hscore & _)].
  - rewrite Hrun0 in Hrun. injection Hrun as <- _. now left.
  - destruct (suspicious_volume score) eqn:Hsus.
    + rewrite (analyze_token_reject_run apis d a _ vd score s s1 s2
                 Ha Hapi Hvd Hscore Hsus) in Hrun.
      injection Hrun as <- _. now left.
    + rewrite (analyze_token_accept_run apis d a _ vd score s s1 s2
                 Ha Hapi Hvd Hscore Hsus) in Hrun.
      injection Hrun as <- _. right. exists d. eexists.
      split; [reflexivity |]. split; [reflexivity |].
      split; [rewrite lookup_insert_ne by discriminate;
              rewrite lookup_insert_eq; eauto |].
      split; [rewrite lookup_insert_eq; eauto |].
      intros k Hk. rewrite !lookup_insert_ne; [reflexivity | | |];
        intros <-; apply Hk; set_solver.
Qed.

(** C8.  [filter_tokens] (on any list of values) and [analyze_tokens] (on
    any list of records) return from every state; their output is the list
    of per-token verdicts, in input order, with the rejections dropped;
    every verdict kept is its token's record plus the two added fields;
    the output is no longer than the input. *)
Theorem batch_keeps_accepted_in_order :
  (forall request tokens,
     batch_contract
       (crypto_filter_script.perform_comprehensive_analysis request)
       (crypto_filter_script.filter_tokens request)
       "volume_legitimacy_score" "contract_risk_level" tokens)
  /\ (forall apis tokens,
        Forall is_dict tokens ->
        batch_contract
          (crypto_security.analyze_token apis)
          (crypto_security.analyze_tokens apis)
          "volume_score" "risk_level" tokens).
Proof.
  split.
  - intros request tokens s.
    destruct (loop_keeps_accepted
                (crypto_filter_script.perform_comprehensive_analysis request)
                (crypto_filter_script.filter_tokens_loop request)
                "volume_legitimacy_score" "contract_risk_level"
                (fun _ => eq_refl) (fun _ _ _ => eq_refl) tokens)
      with (acc := @nil pyval) (s := s) as (vs & s' & Hvs & Hloop & Hall).
    { apply Forall_forall. intros token _. split;
        [apply perform_comprehensive_analysis_total | apply script_verdict]. }
    exists vs, (List.filter (fun v => negb (is_rejected v)) vs), s'.
    split; [exact Hvs |]. split; [exact Hloop |].
    split; [reflexivity |]. split; [exact Hall |].
    rewrite (Forall2_length _ _ _ Hall). simpl. apply filter_length_bound.
  - intros apis tokens Hdict s.
    destruct (loop_keeps_accepted
                (crypto_security.analyze_token apis)
                (crypto_security.analyze_tokens_loop apis)
                "volume_score" "risk_level"
                (fun _ => eq_refl) (fun _ _ _ => eq_refl) tokens)
      with (acc := @nil pyval) (s := s) as (vs & s' & Hvs & Hloop & Hall).
    { eapply Forall_impl; [exact Hdict |]. intros [| | | | | | d] Hd;
        simpl in Hd; try tauto.
      split; [apply analyze_token_dict_total | apply package_verdict]. }
    exists vs, (List.filter (fun v => negb (is_rejected v)) vs), s'.
    split; [exact Hvs |]. split; [exact Hloop |].
    split; [reflexivity |]. split; [exact Hall |].
    rewrite (Forall2_length _ _ _ Hall). simpl. apply filter_length_bound.
Qed.

Lemma batch_keeps_accepted_in_order_witness :
  batch_contract
    (crypto_security.analyze_token [stub_backend])
    (crypto_security.analyze_tokens [stub_backend])
    "volume_score" "risk_level"
    [low_volume_token; sample_token "0xAAA"; PDict ∅; sample_token "0xBBB"].
Proof.
  apply (proj2 batch_keeps_accepted_in_order [stub_backend]).
  repeat constructor.
Defined.

(** The batch of the unit tests: one good and one low-volume token give
    one record, the good one. *)
Example filter_tokens_mixed_batch :
  exists d',
    fst (crypto_filter_script.filter_tokens crypto_filter_script.simulated_request
           [sample_token "0x123token_address"; low_volume_token] fresh_state)
    = Ok [PDict d']
    /\ d' !! "symbol" = Some (PStr "TEST")
    /\ d' !! "volume_legitimacy_score" = Some (of_num (float_lit (8 # 10)))
    /\ d' !! "contract_risk_level" = Some (PStr "LOW_RISK").
Proof.
  eexists. split; [vm_compute; reflexivity |].
  repeat split; vm_compute; reflexivity.
Qed.

(* ===================================================================== *)
(** ** Lowercase storage *)
(* ===================================================================== *)

Lemma lower_ascii_idempotent c : lower_ascii (lower_ascii c) = lower_ascii c.
Proof. destruct c as [[] [] [] [] [] [] [] []]; reflexivity. Qed.

Lemma lower_idempotent a : lower (lower a) = lower a.
Proof.
  induction a as [| c a IH]; simpl; [reflexivity |].
  now rewrite lower_ascii_idempotent, IH.
Qed.

(** What [_save_blacklists] leaves of the sets: all of them. *)
Lemma save_blacklists s :
  blacklists (snd (blacklist_manager._save_blacklists s)) = blacklists s.
Proof. destruct (save_run s) as (s' & -> & H & _). exact H. Qed.

(** The sets after each mutation. *)
Ltac run_save :=
  match goal with
  | |- context [blacklist_manager._save_blacklists ?st] =>
      let s2 := fresh "s2" in
      let Hrun := fresh "Hrun" in
      let Hbl := fresh "Hbl" in
      destruct (save_run st) as (s2 & Hrun & Hbl & _);
      rewrite Hrun; simpl; exact Hbl
  end.

Lemma add_blacklists bt a s :
  blacklists (snd (blacklist_manager.add_to_blacklist bt a s)) = blacklists s
  \/ exists members x,
       blacklists s !! bt = Some members /\ py_lower a = Ok x
       /\ blacklists (snd (blacklist_manager.add_to_blacklist bt a s))
          = <[bt := {[x]} ∪ members]> (blacklists s).
Proof.
  unfold blacklist_manager.add_to_blacklist.
  destruct (negb (py_truthy a)); [now left |].
  unfold bind, get_blacklists, lift, set_blacklists.
  destruct (blacklists s !! bt) as [members |] eqn:Hbt; [| now left].
  destruct (py_lower a) as [x | e]; [| now left].
  right. exists members, x. split; [reflexivity |]. split; [reflexivity |].
  run_save.
Qed.

Lemma remove_blacklists bt a s :
  blacklists (snd (blacklist_manager.remove_from_blacklist bt a s)) = blacklists s
  \/ exists members x,
       blacklists s !! bt = Some members /\ py_lower a = Ok x
       /\ blacklists (snd (blacklist_manager.remove_from_blacklist bt a s))
          = <[bt := members ∖ {[x]}]> (blacklists s).
Proof.
  unfold blacklist_manager.remove_from_blacklist.
  unfold bind, get_blacklists, lift, set_blacklists.
  destruct (blacklists s !! bt) as [members |] eqn:Hbt; [| now left].
  destruct (py_lower a) as [x | e]; [| now left].
  right. exists members, x. split; [reflexivity |]. split; [reflexivity |].
  run_save.
Qed.

Lemma clear_blacklists bt s :
  blacklists (snd (blacklist_manager.clear_blacklist bt s)) = blacklists s
  \/ is_Some (blacklists s !! bt)
     /\ blacklists (snd (blacklist_manager.clear_blacklist bt s))
        = <[bt := ∅]> (blacklists s).
Proof.
  unfold blacklist_manager.clear_blacklist.
  unfold bind, get_blacklists, lift, set_blacklists.
  destruct (blacklists s !! bt) as [members |] eqn:Hbt; [| now left].
  right. split; [eauto |].
  run_save.
Qed.

Lemma dom_insert_present (bl : gmap string (gset string)) bt x :
  is_Some (bl !! bt) -> dom (<[bt := x]> bl) = dom bl.
Proof.
  intros H. rewrite dom_insert_L. apply elem_of_dom in H.
  apply set_eq. intros k. rewrite elem_of_union, elem_of_singleton.
  split; [intros [-> | Hk]; assumption | tauto].
Qed.

Lemma lowercase_insert (bl : gmap string (gset string)) bt (ms : gset string) :
  (forall cat members a, bl !! cat = Some members -> a ∈ members -> is_lowercase a) ->
  (forall a, a ∈ ms -> is_lowercase a) ->
  forall cat members a,
    <[bt := ms]> bl !! cat = Some members -> a ∈ members -> is_lowercase a.
Proof.
  intros Hbl Hms cat members a H Ha.
  destruct (decide (bt = cat)) as [-> | Hne].
  - rewrite lookup_insert_eq in H. injection H as <-. now apply Hms.
  - rewrite lookup_insert_ne in H by assumption. eapply Hbl; eassumption.
Qed.

(** One mutation keeps the categories and the lowercase storage. *)
Lemma operation_keeps_invariant o s :
  categories_present s /\ all_lowercase s ->
  categories_present (snd (run_operation o s))
  /\ all_lowercase (snd (run_operation o s)).
Proof.
  unfold categories_present, all_lowercase. intros [Hdom Hlow].
  destruct o as [bt a | bt a | bt]; simpl.
  - destruct (add_blacklists bt a s) as [-> | (members & x & Hbt & Hx & ->)];
      [now split |].
    split; [now rewrite dom_insert_present by eauto |].
    apply lowercase_insert; [exact Hlow |].
    intros y Hy. apply elem_of_union in Hy as [Hy | Hy].
    + apply elem_of_singleton in Hy as ->.
      destruct a; try discriminate. injection Hx as <-.
      apply lower_idempotent.
    + eapply Hlow; eassumption.
  - destruct (remove_blacklists bt a s) as [-> | (members & x & Hbt & Hx & ->)];
      [now split |].
    split; [now rewrite dom_insert_present by eauto |].
    apply lowercase_insert; [exact Hlow |].
    intros y Hy. apply elem_of_difference in Hy as [Hy _].
    eapply Hlow; eassumption.
  - destruct (clear_blacklists bt s) as [-> | (Hbt & ->)]; [now split |].
    split; [now rewrite dom_insert_present |].
    apply lowercase_insert; [exact Hlow |]. intros y Hy. set_solver.
Qed.

(** [BlacklistManager()] gives the four categories; the sets it loads are
    lowercase when the file is. *)
Lemma init_invariant s :
  categories_present (snd (blacklist_manager.init s))
  /\ (file_lowercase (blacklist_file s) ->
      all_lowercase (snd (blacklist_manager.init s))).
Proof.
  unfold blacklist_manager.init, blacklist_manager._load_blacklists,
    blacklist_manager.safe_load, try_except, bind, set_blacklists, ret,
    categories_present, all_lowercase.
  destruct (blacklist_file s) as [| e | data] eqn:Hfile; simpl.
  - split; [reflexivity |]. intros _ cat members a H Ha.
    unfold blacklist_manager.empty_blacklists in H.
    repeat (apply lookup_insert_Some in H as [[_ <-] | [_ H]];
            [set_solver |]).
    now rewrite lookup_empty in H.
  - destruct (exn_cls e); simpl; (split; [reflexivity |]);
      intros _ cat members a H Ha;
      unfold blacklist_manager.empty_blacklists in H;
      repeat (apply lookup_insert_Some in H as [[_ <-] | [_ H]];
              [set_solver |]);
      now rewrite lookup_empty in H.
  - split.
    + unfold blacklist_manager.empty_blacklists. now rewrite !dom_insert_L.
    + intros Hlow cat members a H Ha.
      assert (Hcat : forall key, a ∈ blacklist_manager.load_category
                                       (default ∅ data) key -> is_lowercase a).
      { intros key Hin. unfold blacklist_manager.load_category in Hin.
        apply elem_of_list_to_set in Hin.
        destruct data as [data |]; simpl in Hin.
        - destruct (data !! key) as [entries |] eqn:Hkey; simpl in Hin.
          + eapply Hlow; [reflexivity | exact Hkey | exact Hin].
          + now apply elem_of_nil in Hin.
        - rewrite lookup_empty in Hin. now apply elem_of_nil in Hin. }
      repeat (apply lookup_insert_Some in H as [[_ <-] | [_ H]];
              [now apply (Hcat _ Ha) |]).
      now rewrite lookup_empty in H.
Qed.

(** Membership is tested on the lowercase form: two spellings of an
    address get the same answer. *)
Lemma is_blacklisted_case_insensitive cat a b s :
  lower a = lower b ->
  blacklist_manager.is_blacklisted cat (PStr a) s
  = blacklist_manager.is_blacklisted cat (PStr b) s.
Proof.
  intros H. unfold blacklist_manager.is_blacklisted, bind, lift, py_lower.
  now rewrite H.
Qed.

(** From a file with lowercase entries (or none, or an unreadable one)
    every reachable state stores lowercase addresses only, in the four
    categories. *)
Lemma lowercase_invariant ops s :
  file_lowercase (blacklist_file s) ->
  categories_present (after_operations ops s)
  /\ all_lowercase (after_operations ops s).
Proof.
  intros Hfile. unfold after_operations.
  destruct (init_invariant s) as [Hcat Hlow]. specialize (Hlow Hfile).
  generalize dependent (snd (blacklist_manager.init s)).
  induction ops as [| o ops IH]; intros s0 Hcat Hlow; simpl; [now split |].
  destruct (operation_keeps_invariant o s0 (conj Hcat Hlow)) as [Hc Hl].
  now apply IH.
Qed.

(** C6 at its failing input.  A blacklist file holding ['0xABC'] under
    [tokens] is loaded as it is: [_load_blacklists] builds the sets with
    [set(data.get(...))] and does not lowercase.  The stored address is not
    lowercase; the membership test answers false for it, in either
    spelling; [remove_from_blacklist] does not remove it. *)
Theorem load_keeps_mixed_case :
  stored "tokens" "0xABC" loaded_mixed_case
  /\ ~ is_lowercase "0xABC"
  /\ ~ all_lowercase loaded_mixed_case
  /\ fst (blacklist_manager.is_blacklisted "tokens" (PStr "0xABC")
            loaded_mixed_case) = Ok false
  /\ fst (blacklist_manager.is_blacklisted "tokens" (PStr "0xabc")
            loaded_mixed_case) = Ok false
  /\ stored "tokens" "0xABC"
       (snd (blacklist_manager.remove_from_blacklist "tokens" (PStr "0xABC")
               loaded_mixed_case)).
Proof.
  assert (Hstored : stored "tokens" "0xABC" loaded_mixed_case).
  { exists {["0xABC"]}. split; [vm_compute; reflexivity | set_solver]. }
  split; [exact Hstored |].
  split; [intros H; vm_compute in H; discriminate |].
  split.
  { intros H. destruct Hstored as (members & Hm & Ha).
    specialize (H _ _ _ Hm Ha). vm_compute in H. discriminate. }
  split; [vm_compute; reflexivity |].
  split; [vm_compute; reflexivity |].
  exists {["0xABC"]}. split; [vm_compute; reflexivity | set_solver].
Qed.
